(** * scripts/image_to_sprite.py: a verified model

    The script decodes an image with Pillow, optionally resizes it to a
    target width, thresholds every pixel by brightness into a grid of 0/1
    and prints the grid as a TypeScript constant.

    The embedding follows the script function by function.  Python's
    numbers are modelled as the script uses them: [int] as [Z], [float] as
    the kernel's binary64 ([PrimFloat]), so that [img.height / img.width],
    [int(...)] and [(r + g + b) / 3 < threshold] compute what CPython
    computes.  Printing, [sys.exit] and uncaught exceptions are modelled by
    a small output-and-exception monad. *)

From Stdlib Require Import ZArith List String Ascii Bool Lia QArith.
From Stdlib Require Import PrimFloat FloatOps SpecFloat.
From Stdlib Require Import Strings.Byte DecimalString.
Import ListNotations.

Local Open Scope string_scope.
Local Open Scope Z_scope.

(** ** Python numbers *)

Module Py.

(** Exceptions the script can end with.  [SystemExit] is what [sys.exit]
    raises; [ImageError] stands for whatever [Image.open] raises on a
    file it cannot decode. *)
Inductive exn : Type :=
| SystemExit (code : Z)
| ValueError
| ZeroDivisionError
| OverflowError
| ImageError.

(** [float(n)] for an [int]: the nearest binary64, ties to even;
    [OverflowError] when that is not finite. *)
Definition float_of_int (n : Z) : exn + float :=
  match binary_normalize prec emax n 0 false with
  | S754_infinity _ | S754_nan => inl OverflowError
  | sf => inr (SF2Prim sf)
  end.

(** [a / b] on two [int]s.  CPython rounds the exact quotient once; for
    operands below 2^53 in magnitude, which covers the dimensions of a
    decoded image, that is the binary64 quotient of the two conversions. *)
Definition truediv (a b : Z) : exn + float :=
  if b =? 0 then inl ZeroDivisionError
  else
    match float_of_int a, float_of_int b with
    | inr x, inr y => inr (PrimFloat.div x y)
    | inl e, _ => inl e
    | _, inl e => inl e
    end.

(** [n * x] with [n] an [int] and [x] a [float]. *)
Definition mul_int_float (n : Z) (x : float) : exn + float :=
  match float_of_int n with
  | inr y => inr (PrimFloat.mul y x)
  | inl e => inl e
  end.

(** The integer [m * 2^e] truncated toward zero, for [m > 0]. *)
Definition trunc_pos (m : positive) (e : Z) : Z :=
  match e with
  | Zneg p => Z.shiftr (Zpos m) (Zpos p)
  | _ => Z.shiftl (Zpos m) e
  end.

(** [int(x)] on a [float]: truncation toward zero. *)
Definition int_of_float (x : float) : exn + Z :=
  match Prim2SF x with
  | S754_zero _ => inr 0
  | S754_finite s m e => inr (if s then - trunc_pos m e else trunc_pos m e)
  | S754_infinity _ => inl OverflowError
  | S754_nan => inl ValueError
  end.

(** [x < n] with [x] a [float] and [n] an [int].  CPython compares the
    two values exactly, without converting [n] to a float. *)
Definition float_lt_int (x : float) (n : Z) : bool :=
  match Prim2SF x with
  | S754_zero _ => 0 <? n
  | S754_finite s m e =>
      let v := if s then Zneg m else Zpos m in
      match e with
      | Zneg p => v <? n * 2 ^ Zpos p
      | _ => v * 2 ^ e <? n
      end
  | S754_infinity s => s
  | S754_nan => false
  end.

(** [str(n)] on an [int]. *)
Definition str (n : Z) : string := NilZero.string_of_int (Z.to_int n).

(** [range(n)]. *)
Definition range (n : Z) : list Z := map Z.of_nat (seq 0 (Z.to_nat n)).

(** [len(l)]. *)
Definition len {A : Type} (l : list A) : Z := Z.of_nat (List.length l).

(** [l.append(x)], as the list that results. *)
Definition append {A : Type} (l : list A) (x : A) : list A := (l ++ [x])%list.

(** The newline character and [sep.join(l)]. *)
Definition nl : string := String (ascii_of_nat 10) EmptyString.
Definition join (sep : string) (l : list string) : string := String.concat sep l.

End Py.

(** ** Output, exit and exceptions

    A run of the script is a list of the events it performed, in order, and
    either a value or the exception that ended it. *)

Inductive event : Type :=
| Stdout (text : string)      (* print(text): text and a newline on sys.stdout *)
| Stderr (text : string)      (* print(text, file=sys.stderr) *)
| PathExists (path : string)  (* a call of os.path.exists *)
| ImageOpen (path : string).  (* a call of Image.open *)

Definition M (A : Type) : Type := (list event * (Py.exn + A))%type.

Definition ret {A : Type} (a : A) : M A := ([], inr a).
Definition raise {A : Type} (e : Py.exn) : M A := ([], inl e).
Definition lift {A : Type} (r : Py.exn + A) : M A := ([], r).
Definition emit (ev : event) : M unit := ([ev], inr tt).

Definition bind {A B : Type} (m : M A) (k : A -> M B) : M B :=
  match m with
  | (out, inl e) => (out, inl e)
  | (out, inr a) => let (out', r) := k a in ((out ++ out')%list, r)
  end.

Notation "x <- m ;; k" := (bind m (fun x => k))
  (at level 61, m at next level, right associativity).
Notation "' pat <- m ;; k" := (bind m (fun x => match x with pat => k end))
  (at level 61, pat pattern, m at next level, right associativity).
Notation "m ;;; k" := (bind m (fun _ => k))
  (at level 61, right associativity).

Definition print (text : string) : M unit := emit (Stdout text).
Definition print_err (text : string) : M unit := emit (Stderr text).
Definition sys_exit {A : Type} (code : Z) : M A := raise (Py.SystemExit code).

(** A [for] loop that threads the variables it updates. *)
Fixpoint for_each {A S : Type} (l : list A) (s : S) (body : A -> S -> M S) : M S :=
  match l with
  | [] => ret s
  | a :: l' => s' <- body a s ;; for_each l' s' body
  end.

(** What an observer of the process sees. *)
Definition events {A : Type} (m : M A) : list event := fst m.

Fixpoint stdout_lines (evs : list event) : list string :=
  match evs with
  | [] => []
  | Stdout t :: evs' => t :: stdout_lines evs'
  | _ :: evs' => stdout_lines evs'
  end.

Fixpoint stderr_lines (evs : list event) : list string :=
  match evs with
  | [] => []
  | Stderr t :: evs' => t :: stderr_lines evs'
  | _ :: evs' => stderr_lines evs'
  end.

(** The bytes written to standard output: every printed text with its newline. *)
Definition stdout_text (evs : list event) : string :=
  String.concat "" (map (fun t => t ++ Py.nl) (stdout_lines evs)).

(** The interpreter's exit status: 0 on return, the code of [sys.exit],
    1 on any other uncaught exception. *)
Definition exit_status {A : Type} (m : M A) : Z :=
  match snd m with
  | inr _ => 0
  | inl (Py.SystemExit code) => code
  | inl _ => 1
  end.

(** ** Images and the libraries the script calls *)

(** A decoded image: its mode, its [(width, height)] and its pixels.  The
    script reads pixels only after the conversion to RGB, where a pixel is
    three 8-bit channels.  [getpixel] is total: an [Image] is an image
    whose pixel data decodes.  Pillow reads pixel data lazily, so for a
    file that opens but is truncated the first [img.getpixel] raises;
    such files are outside this model. *)
Record Image : Type := {
  mode : string;
  size : Z * Z;
  getpixel : Z * Z -> byte * byte * byte
}.

Definition width (img : Image) : Z := fst (size img).
Definition height (img : Image) : Z := snd (size img).

Definition channel (b : byte) : Z := Z.of_N (Byte.to_N b).

(** Pillow and the built-ins, which are not part of the repository: what
    the script calls, with the two facts about sizes that Pillow documents. *)
Class Library : Type := {
  (* img.convert(mode) *)
  convert : Image -> string -> Image;
  (* img.resize(size, Image.Resampling.NEAREST) *)
  resize : Image -> Z * Z -> Py.exn + Image;
  (* int(s) on a string; None when it raises ValueError *)
  int_of_str : string -> option Z;
  (* format(x, ".1f") *)
  format_1f : float -> string;
  convert_size : forall img m, size (convert img m) = size img;
  resize_size : forall img sz img', resize img sz = inr img' -> size img' = sz
}.

(** The file system of one run: which paths exist, and what [Image.open]
    decodes at a path ([None] when it raises). *)
Record World : Type := {
  path_exists : string -> bool;
  decode : string -> option Image
}.

Definition os_path_exists (w : World) (path : string) : M bool :=
  emit (PathExists path) ;;; ret (path_exists w path).

Definition Image_open (w : World) (path : string) : M Image :=
  emit (ImageOpen path) ;;;
  match decode w path with
  | Some img => ret img
  | None => raise Py.ImageError
  end.

(** ** The script *)

Section Script.

Context {lib : Library}.

(** Lines 32-33: the height that goes with [target_width]. *)
Definition target_height (img : Image) (target_width : Z) : M Z :=
  aspect_ratio <- lift (Py.truediv (height img) (width img)) ;;
  product <- lift (Py.mul_int_float target_width aspect_ratio) ;;
  lift (Py.int_of_float product).

(** Lines 27-28: convert to RGB if necessary. *)
Definition to_rgb (img : Image) : Image :=
  if negb (mode img =? "RGB")%string then convert img "RGB" else img.

(** Lines 23-34: open, convert, resize if a target width is given.
    [if target_width:] is false for [None] and for 0. *)
Definition load_image (w : World) (image_path : string) (target_width : option Z)
  : M Image :=
  img <- Image_open w image_path ;;
  let img := to_rgb img in
  match target_width with
  | None => ret img
  | Some tw =>
      if tw =? 0 then ret img
      else
        th <- target_height img tw ;;
        lift (resize img (tw, th))
  end.

(** Lines 44-48: the value of one pixel. *)
Definition pixel_value (img : Image) (threshold : Z) (x y : Z) : M Z :=
  let '(r, g, b) := getpixel img (x, y) in
  brightness <- lift (Py.truediv (channel r + channel g + channel b) 3) ;;
  ret (if Py.float_lt_int brightness threshold then 1 else 0).

(** Lines 39-50: the two nested loops, each appending to its list. *)
Definition pixel_rows (img : Image) (threshold : Z) (width height : Z)
  : M (list (list Z)) :=
  for_each (Py.range height) [] (fun y pixels =>
    row <- for_each (Py.range width) [] (fun x row =>
             v <- pixel_value img threshold x y ;;
             ret (Py.append row v)) ;;
    ret (Py.append pixels row)).

Definition image_to_sprite (w : World) (image_path : string) (threshold : Z)
           (target_width : option Z) : M (list (list Z) * Z * Z) :=
  img <- load_image w image_path target_width ;;
  let '(width, height) := size img in
  print_err ("Image size: " ++ Py.str width ++ "x" ++ Py.str height) ;;;
  pixels <- pixel_rows img threshold width height ;;
  ret (pixels, width, height).

(** [format_as_typescript]: the list [lines] grows by [append], then is
    joined with newlines. *)
Definition format_as_typescript (pixels : list (list Z)) (name : string) : string :=
  let lines := ["const " ++ name ++ " = {"] in
  let lines := Py.append lines "  pixels: [" in
  let lines :=
    fold_left (fun lines row =>
                 let row_str := Py.join "," (map Py.str row) in
                 Py.append lines ("    [" ++ row_str ++ "],"))
              pixels lines in
  let lines := Py.append lines "  ]," in
  let lines := Py.append lines "};" in
  Py.join Py.nl lines.

Definition format_as_compact (pixels : list (list Z)) : string :=
  let lines := ["["] in
  let lines :=
    fold_left (fun lines row =>
                 let row_str := Py.join "," (map Py.str row) in
                 Py.append lines ("  [" ++ row_str ++ "],"))
              pixels lines in
  let lines := Py.append lines "]" in
  Py.join Py.nl lines.

(** [sum(l)]. *)
Definition sum (l : list Z) : Z := fold_left Z.add l 0.

(** [sys.argv[i]], for an index the script has checked. *)
Definition arg (argv : list string) (i : nat) : string := nth i argv "".

(** [int(s)]. *)
Definition int (s : string) : M Z :=
  match int_of_str s with
  | Some n => ret n
  | None => raise Py.ValueError
  end.

Definition main (w : World) (argv : list string) : M unit :=
  if Py.len argv <? 2 then
    print "Usage: python image_to_sprite.py <image_path> [threshold] [target_width]" ;;;
    print "  threshold: 0-255, default 128. Pixels darker than this become 1" ;;;
    print "  target_width: optional, resize image to this width" ;;;
    sys_exit 1
  else
    let image_path := arg argv 1 in
    threshold <- (if 2 <? Py.len argv then int (arg argv 2) else ret 128) ;;
    target_width <- (if 3 <? Py.len argv
                     then n <- int (arg argv 3) ;; ret (Some n)
                     else ret None) ;;
    found <- os_path_exists w image_path ;;
    if negb found then
      print_err ("Error: File not found: " ++ image_path) ;;;
      sys_exit 1
    else
      '(pixels, width, height) <- image_to_sprite w image_path threshold target_width ;;
      print (format_as_typescript pixels "STACK_ATTACK_LOGO") ;;;
      let total_pixels := width * height in
      let filled_pixels := sum (map sum pixels) in
      print_err (Py.nl ++ "// Dimensions: " ++ Py.str width ++ "x" ++ Py.str height) ;;;
      print_err ("// Total pixels: " ++ Py.str total_pixels) ;;;
      ratio <- lift (Py.truediv filled_pixels total_pixels) ;;
      print_err ("// Filled pixels: " ++ Py.str filled_pixels ++ " ("
                 ++ format_1f (PrimFloat.mul ratio 100) ++ "%)").

End Script.

(** [round(n / d)] for [d > 0]: the nearest integer, a tie going to the
    even one, as Python's [round] does. *)
Definition round_div (n d : Z) : Z :=
  let q := n / d in
  let r := n mod d in
  if 2 * r <? d then q
  else if d <? 2 * r then q + 1
  else if Z.even q then q else q + 1.

(** ** A concrete library and file system

    An instance of the interface, on which the script can be run: resizing
    samples the nearest source pixel and refuses an empty size, [int]
    reads an optionally signed run of ASCII digits. *)

Module Demo.

Definition black : byte * byte * byte := (Byte.x00, Byte.x00, Byte.x00).
Definition white : byte * byte * byte := (Byte.xff, Byte.xff, Byte.xff).
Definition grey : byte * byte * byte := (Byte.x80, Byte.x7f, Byte.x80).

Definition image_of_rows (rows : list (list (byte * byte * byte))) : Image :=
  {| mode := "RGB";
     size := (Py.len (hd [] rows), Py.len rows);
     getpixel := fun '(x, y) => nth (Z.to_nat x) (nth (Z.to_nat y) rows []) white |}.

Definition nearest (img : Image) (sz : Z * Z) : Py.exn + Image :=
  let '(tw, th) := sz in
  if (tw <? 1) || (th <? 1) then inl Py.ValueError
  else inr {| mode := mode img;
              size := (tw, th);
              getpixel := fun '(x, y) =>
                getpixel img ((2 * x + 1) * width img / (2 * tw),
                              (2 * y + 1) * height img / (2 * th)) |}.

Fixpoint digits (s : string) (acc : Z) : option Z :=
  match s with
  | EmptyString => Some acc
  | String c s' =>
      let n := Z.of_nat (nat_of_ascii c) in
      if (48 <=? n) && (n <=? 57) then digits s' (10 * acc + (n - 48)) else None
  end.

Definition unsigned (s : string) : option Z :=
  match s with
  | EmptyString => None
  | _ => digits s 0
  end.

Definition parse_int (s : string) : option Z :=
  match s with
  | String "-" s' => option_map Z.opp (unsigned s')
  | String "+" s' => unsigned s'
  | _ => unsigned s
  end.

(** [format(x, ".1f")]: the exact value of [x] rounded to the nearest
    tenth, a tie going to the even one; the sign is that of [x]. *)
Definition one_decimal (x : float) : string :=
  match Prim2SF x with
  | S754_nan => "nan"
  | S754_infinity s => if s then "-inf" else "inf"
  | S754_zero s => if s then "-0.0" else "0.0"
  | S754_finite s m e =>
      let n := match e with
               | Zneg p => round_div (10 * Zpos m) (2 ^ Zpos p)
               | _ => 10 * Zpos m * 2 ^ e
               end in
      (if s then "-" else "") ++ Py.str (n / 10) ++ "." ++ Py.str (n mod 10)
  end.

#[export] Instance library : Library.
Proof.
  refine {| convert := fun img m =>
              {| mode := m; size := size img; getpixel := getpixel img |};
            resize := nearest;
            int_of_str := parse_int;
            format_1f := one_decimal |}.
  - reflexivity.
  - intros img [tw th] img' H. unfold nearest in H.
    destruct ((tw <? 1) || (th <? 1)); inversion H; reflexivity.
Defined.

(** The image of the specification's scenario, two by two. *)
Definition logo : Image := image_of_rows [[black; white]; [black; white]].

(** Three pixels wide, one high. *)
Definition strip : Image := image_of_rows [[black; grey; white]].

Definition world : World :=
  {| path_exists := fun p =>
       (p =? "logo.png")%string || (p =? "strip.png")%string || (p =? "notes.txt")%string;
     decode := fun p =>
       if (p =? "logo.png")%string then Some logo
       else if (p =? "strip.png")%string then Some strip
       else None |}.

(** A second file system: the same two images, other files around them. *)
Definition other_world : World :=
  {| path_exists := fun p =>
       (p =? "logo.png")%string || (p =? "strip.png")%string || (p =? "README.md")%string;
     decode := fun p =>
       if (p =? "logo.png")%string then Some logo
       else if (p =? "strip.png")%string then Some strip
       else if (p =? "copy.png")%string then Some logo
       else None |}.

End Demo.

(** ** Edge cases: an image without pixels *)

Module Edge.

(** What a decoder gives for a file that declares size 0 x 0. *)
Definition blank : Image := Demo.image_of_rows [].

Definition world : World :=
  {| path_exists := fun p => (p =? "blank.png")%string || (p =? "logo.png")%string;
     decode := fun p =>
       if (p =? "blank.png")%string then Some blank
       else if (p =? "logo.png")%string then Some Demo.logo
       else None |}.

End Edge.

(** ** The notions the properties are stated with *)

(** The brightness of a pixel as the exact mean of its channels. *)
Definition brightness (px : byte * byte * byte) : Q :=
  let '(r, g, b) := px in (inject_Z (channel r + channel g + channel b) / 3)%Q.

(** The grid value of a pixel decided on integers. *)
Definition foreground (px : byte * byte * byte) (threshold : Z) : Z :=
  let '(r, g, b) := px in
  if channel r + channel g + channel b <? 3 * threshold then 1 else 0.

(** The grid of an image: row [y], column [x]. *)
Definition grid (img : Image) (threshold : Z) : list (list Z) :=
  map (fun y => map (fun x => foreground (getpixel img (x, y)) threshold)
                    (Py.range (width img)))
      (Py.range (height img)).

(** The largest integer not above a finite float. *)
Definition sf_floor (sf : spec_float) : option Z :=
  match sf with
  | S754_zero _ => Some 0
  | S754_finite s m e =>
      let v := if s then Zneg m else Zpos m in
      Some match e with
           | Zneg p => v / 2 ^ Zpos p
           | _ => v * 2 ^ e
           end
  | _ => None
  end.

(** A channel sum whose binary64 third has the floor of the exact third. *)
Definition third_ok (s : Z) : bool :=
  match Py.truediv s 3 with
  | inr x =>
      match sf_floor (Prim2SF x) with
      | Some f => f =? s / 3
      | None => false
      end
  | inl _ => false
  end.

(** The size line the function writes to [sys.stderr]. *)
Definition size_line (img : Image) : string :=
  "Image size: " ++ Py.str (width img) ++ "x" ++ Py.str (height img).

(** The three usage lines. *)
Definition usage : list string :=
  [ "Usage: python image_to_sprite.py <image_path> [threshold] [target_width]";
    "  threshold: 0-255, default 128. Pixels darker than this become 1";
    "  target_width: optional, resize image to this width" ].

(** The optional arguments that are present are accepted by [int]. *)
Definition args_parse {lib : Library} (argv : list string) : Prop :=
  (2 < Py.len argv -> exists n, int_of_str (arg argv 2) = Some n) /\
  (3 < Py.len argv -> exists n, int_of_str (arg argv 3) = Some n).

(** An optional argument is present and [int] rejects it. *)
Definition bad_int {lib : Library} (argv : list string) : Prop :=
  (2 < Py.len argv /\ int_of_str (arg argv 2) = None) \/
  (3 < Py.len argv /\ int_of_str (arg argv 3) = None).

(** The optional arguments as [main] reads them, once they parse. *)
Definition threshold_of {lib : Library} (argv : list string) : Z :=
  if 2 <? Py.len argv
  then match int_of_str (arg argv 2) with Some n => n | None => 128 end
  else 128.

Definition target_width_of {lib : Library} (argv : list string) : option Z :=
  if 3 <? Py.len argv then int_of_str (arg argv 3) else None.

(** Lines 94-108 of [main]: what follows the reading of the arguments. *)
Definition run {lib : Library} (w : World) (image_path : string) (threshold : Z)
           (target_width : option Z) : M unit :=
  found <- os_path_exists w image_path ;;
  if negb found then
    print_err ("Error: File not found: " ++ image_path) ;;;
    sys_exit 1
  else
    '(pixels, width, height) <- image_to_sprite w image_path threshold target_width ;;
    print (format_as_typescript pixels "STACK_ATTACK_LOGO") ;;;
    let total_pixels := width * height in
    let filled_pixels := sum (map sum pixels) in
    print_err (Py.nl ++ "// Dimensions: " ++ Py.str width ++ "x" ++ Py.str height) ;;;
    print_err ("// Total pixels: " ++ Py.str total_pixels) ;;;
    ratio <- lift (Py.truediv filled_pixels total_pixels) ;;
    print_err ("// Filled pixels: " ++ Py.str filled_pixels ++ " ("
               ++ format_1f (PrimFloat.mul ratio 100) ++ "%)").

(** The text of the constant for a grid, written out row by row. *)
Definition logo_text (pixels : list (list Z)) : string :=
  "const STACK_ATTACK_LOGO = {" ++ Py.nl ++
  "  pixels: [" ++ Py.nl ++
  String.concat ""
    (map (fun row => "    [" ++ String.concat "," (map Py.str row) ++ "]," ++ Py.nl) pixels) ++
  "  ]," ++ Py.nl ++
  "};".

(** The text of the compact form for a grid, written out row by row. *)
Definition compact_text (pixels : list (list Z)) : string :=
  "[" ++ Py.nl ++
  String.concat ""
    (map (fun row => "  [" ++ String.concat "," (map Py.str row) ++ "]," ++ Py.nl) pixels) ++
  "]".

(** A grid of 0s and 1s. *)
Definition bit (v : Z) : Prop := v = 0 \/ v = 1.
Definition bits (pixels : list (list Z)) : Prop := Forall (Forall bit) pixels.

(** Reading a literal back, character by character: a digit 0 or 1 is the
    next entry of the current row, a closing bracket ends the current row.
    The state is the rows read so far and the row being read. *)
Definition scan_char (c : ascii) (st : list (list Z) * list Z) : list (list Z) * list Z :=
  let '(rows, cur) := st in
  if (c =? "0")%char then (rows, Py.append cur 0)
  else if (c =? "1")%char then (rows, Py.append cur 1)
  else if (c =? "]")%char then (Py.append rows cur, [])
  else st.

Fixpoint scan (s : string) (st : list (list Z) * list Z) : list (list Z) * list Z :=
  match s with
  | EmptyString => st
  | String c s' => scan s' (scan_char c st)
  end.

(** In both forms the last closing bracket closes the list of rows, not a
    row: what it ends is dropped. *)
Definition read_grid (s : string) : list (list Z) :=
  removelast (fst (scan s ([], []))).

(** The number of entries of a grid that are 1. *)
Definition ones (pixels : list (list Z)) : nat :=
  count_occ Z.eq_dec (List.concat pixels) 1.

(** ** Python numbers: facts *)

Lemma range_length n : List.length (Py.range n) = Z.to_nat n.
Proof. unfold Py.range. now rewrite length_map, length_seq. Qed.

Lemma range_In n i : In i (Py.range n) <-> 0 <= i < n.
Proof.
  unfold Py.range. rewrite in_map_iff. split.
  - intros (k & <- & Hk). apply in_seq in Hk. lia.
  - intros H. exists (Z.to_nat i). split; [lia|]. apply in_seq. lia.
Qed.

Lemma range_nth n i d : 0 <= i < n -> nth (Z.to_nat i) (Py.range n) d = i.
Proof.
  intros H. unfold Py.range.
  rewrite nth_indep with (d' := Z.of_nat 0) by (rewrite length_map, length_seq; lia).
  rewrite map_nth, seq_nth by lia. lia.
Qed.

Lemma channel_bounds b : 0 <= channel b <= 255.
Proof.
  unfold channel. pose proof (Byte.to_N_bounded b). lia.
Qed.

Lemma float_lt_int_floor x n f :
  sf_floor (Prim2SF x) = Some f -> Py.float_lt_int x n = (f <? n).
Proof.
  unfold Py.float_lt_int, sf_floor.
  destruct (Prim2SF x) as [s|s| |s m e]; try discriminate.
  - now intros [= <-].
  - intros [= <-]. destruct e as [|p|p]; try reflexivity.
    set (v := if s then Z.neg m else Z.pos m).
    assert (Hd : 0 < 2 ^ Z.pos p) by (apply Z.pow_pos_nonneg; lia).
    apply Bool.eq_true_iff_eq. rewrite !Z.ltb_lt. split; intros H.
    + apply Z.div_lt_upper_bound; lia.
    + pose proof (Z.mul_div_le v _ Hd).
      pose proof (Z.mod_pos_bound v _ Hd).
      pose proof (Z.div_mod v (2 ^ Z.pos p)). nia.
Qed.

Lemma third_table : forallb third_ok (Py.range 766) = true.
Proof. vm_compute. reflexivity. Qed.

(** The float comparison of the script decides the integer inequality. *)
Lemma third_lt s t :
  0 <= s <= 765 ->
  exists x, Py.truediv s 3 = inr x /\ Py.float_lt_int x t = (s <? 3 * t).
Proof.
  intros Hs.
  assert (Hok : third_ok s = true).
  { pose proof third_table as T. rewrite forallb_forall in T.
    apply T, range_In. lia. }
  unfold third_ok in Hok.
  destruct (Py.truediv s 3) as [e|x]; [discriminate|].
  destruct (sf_floor (Prim2SF x)) as [f|] eqn:Hf; [|discriminate].
  exists x. split; [reflexivity|].
  rewrite (float_lt_int_floor _ _ _ Hf).
  apply Z.eqb_eq in Hok. subst f.
  apply Bool.eq_true_iff_eq. rewrite !Z.ltb_lt.
  pose proof (Z.div_mod s 3). pose proof (Z.mod_pos_bound s 3). lia.
Qed.

Lemma brightness_lt px t :
  (brightness px < inject_Z t)%Q <->
  foreground px t = 1.
Proof.
  destruct px as [[r g] b]. unfold brightness, foreground.
  set (s := channel r + channel g + channel b).
  destruct (Z.ltb_spec s (3 * t)) as [H|H].
  - split; [reflexivity|]. intros _.
    unfold Qlt, Qdiv, Qmult, Qinv, inject_Z; simpl. lia.
  - split; [|discriminate]. intros Hq. exfalso.
    unfold Qlt, Qdiv, Qmult, Qinv, inject_Z in Hq; simpl in Hq. lia.
Qed.

Lemma foreground_bit px t : foreground px t = 0 \/ foreground px t = 1.
Proof.
  destruct px as [[r g] b]. unfold foreground.
  destruct (_ <? _); auto.
Qed.

(** ** The monad: facts *)

Lemma bind_ret {A B : Type} (a : A) (k : A -> M B) : bind (ret a) k = k a.
Proof. unfold bind, ret. now destruct (k a). Qed.

Lemma bind_lift_inr {A B : Type} (a : A) (k : A -> M B) : bind (lift (inr a)) k = k a.
Proof. apply bind_ret. Qed.

Lemma bind_lift_inl {A B : Type} (e : Py.exn) (k : A -> M B) :
  bind (lift (inl e)) k = raise e.
Proof. reflexivity. Qed.

Lemma bind_ok {A B : Type} (m : M A) (k : A -> M B) out a :
  m = (out, inr a) -> bind m k = ((out ++ fst (k a))%list, snd (k a)).
Proof. intros ->. unfold bind. now destruct (k a). Qed.

Lemma bind_fail {A B : Type} (m : M A) (k : A -> M B) out e :
  m = (out, inl e) -> bind m k = (out, inl e).
Proof. now intros ->. Qed.

(** A loop whose body only appends a value computed from the element
    builds the mapped list. *)
Lemma for_each_append {A B : Type} (g : A -> B) (body : A -> list B -> M (list B)) l :
  (forall a s, body a s = ret (Py.append s (g a))) ->
  forall s, for_each l s body = ret (s ++ map g l)%list.
Proof.
  intros Hbody. induction l as [|a l IH]; intros s; simpl.
  - now rewrite app_nil_r.
  - rewrite Hbody, bind_ret, IH. unfold Py.append.
    now rewrite <- app_assoc.
Qed.

(** ** [image_to_sprite]: facts *)

Section ScriptFacts.

Context {lib : Library}.

Lemma to_rgb_size img : size (to_rgb img) = size img.
Proof.
  unfold to_rgb. destruct (negb _); [apply convert_size | reflexivity].
Qed.

Lemma pixel_value_ret img t x y :
  pixel_value img t x y = ret (foreground (getpixel img (x, y)) t).
Proof.
  unfold pixel_value, foreground.
  destruct (getpixel img (x, y)) as [[r g] b].
  pose proof (channel_bounds r). pose proof (channel_bounds g).
  pose proof (channel_bounds b).
  destruct (third_lt (channel r + channel g + channel b) t) as (f & Hf & Hlt);
    [lia|].
  now rewrite Hf, bind_lift_inr, Hlt.
Qed.

Lemma pixel_rows_ret img t :
  pixel_rows img t (width img) (height img) = ret (grid img t).
Proof.
  unfold pixel_rows, grid.
  apply (for_each_append
           (fun y => map (fun x => foreground (getpixel img (x, y)) t)
                         (Py.range (width img)))).
  intros y pixels.
  rewrite (for_each_append (fun x => foreground (getpixel img (x, y)) t)).
  - now rewrite bind_ret.
  - intros x row. now rewrite pixel_value_ret, bind_ret.
Qed.

Lemma image_to_sprite_ok w p t tw evs img :
  load_image w p tw = (evs, inr img) ->
  image_to_sprite w p t tw =
  ((evs ++ [Stderr (size_line img)])%list, inr (grid img t, width img, height img)).
Proof.
  intros H. unfold image_to_sprite. rewrite (bind_ok _ _ _ _ H).
  unfold width, height, size_line, width, height in *.
  pose proof (pixel_rows_ret img t) as R. unfold width, height in R.
  destruct (size img) as [wd ht]; simpl in *.
  unfold print_err, emit. simpl. rewrite R. reflexivity.
Qed.

Lemma image_to_sprite_fail w p t tw evs e :
  load_image w p tw = (evs, inl e) ->
  image_to_sprite w p t tw = (evs, inl e).
Proof. intros H. unfold image_to_sprite. now rewrite (bind_fail _ _ _ _ H). Qed.

Lemma image_to_sprite_inv w p t tw evs pixels wd ht :
  image_to_sprite w p t tw = (evs, inr (pixels, wd, ht)) ->
  exists evs' img,
    load_image w p tw = (evs', inr img) /\
    evs = (evs' ++ [Stderr (size_line img)])%list /\
    pixels = grid img t /\ size img = (wd, ht).
Proof.
  intros H. destruct (load_image w p tw) as [evs' [e|img]] eqn:L.
  - rewrite (image_to_sprite_fail _ _ _ _ _ _ L) in H. discriminate.
  - rewrite (image_to_sprite_ok _ _ t _ _ _ L) in H. inversion H; subst.
    exists evs', img. repeat split. unfold width, height.
    now destruct (size img).
Qed.

End ScriptFacts.

(** ** The grid: facts *)

Lemma grid_rows img t : List.length (grid img t) = Z.to_nat (height img).
Proof. unfold grid. now rewrite length_map, range_length. Qed.

Lemma grid_cols img t :
  Forall (fun row => List.length row = Z.to_nat (width img)) (grid img t).
Proof.
  unfold grid. apply Forall_map, Forall_forall. intros y _.
  now rewrite length_map, range_length.
Qed.

Lemma grid_nth img t x y d :
  0 <= x < width img -> 0 <= y < height img ->
  nth (Z.to_nat x) (nth (Z.to_nat y) (grid img t) []) d
  = foreground (getpixel img (x, y)) t.
Proof.
  intros Hx Hy. unfold grid.
  set (row := fun y => map _ (Py.range (width img))).
  rewrite nth_indep with (d' := row 0) by (rewrite length_map, range_length; lia).
  rewrite map_nth, range_nth by lia. unfold row.
  set (f := fun x => foreground _ t).
  rewrite nth_indep with (d' := f 0) by (rewrite length_map, range_length; lia).
  now rewrite map_nth, range_nth by lia.
Qed.

Lemma grid_bits img t : Forall (Forall (fun v => v = 0 \/ v = 1)) (grid img t).
Proof.
  unfold grid. apply Forall_map, Forall_forall. intros y _.
  apply Forall_map, Forall_forall. intros x _. apply foreground_bit.
Qed.

Lemma foreground_zero px : foreground px 0 = 0.
Proof.
  destruct px as [[r g] b]. unfold foreground.
  pose proof (channel_bounds r). pose proof (channel_bounds g).
  pose proof (channel_bounds b).
  destruct (Z.ltb_spec (channel r + channel g + channel b) (3 * 0)); [lia|reflexivity].
Qed.

Lemma grid_zero img : Forall (Forall (fun v => v = 0)) (grid img 0).
Proof.
  unfold grid. apply Forall_map, Forall_forall. intros y _.
  apply Forall_map, Forall_forall. intros x _. apply foreground_zero.
Qed.

(** ** Loading and resizing: facts *)

Section LoadFacts.

Context {lib : Library}.

Lemma Image_open_ok w p img :
  decode w p = Some img -> Image_open w p = ([ImageOpen p], inr img).
Proof. intros H. unfold Image_open. cbn. now rewrite H. Qed.

Lemma Image_open_fail w p :
  decode w p = None -> Image_open w p = ([ImageOpen p], inl Py.ImageError).
Proof. intros H. unfold Image_open. cbn. now rewrite H. Qed.

Lemma load_image_unsized w p img :
  decode w p = Some img ->
  load_image w p None = ([ImageOpen p], inr (to_rgb img)).
Proof.
  intros H. unfold load_image. now rewrite (bind_ok _ _ _ _ (Image_open_ok _ _ _ H)).
Qed.

Lemma load_image_zero w p : load_image w p (Some 0) = load_image w p None.
Proof. reflexivity. Qed.

Lemma load_image_undecodable w p tw :
  decode w p = None -> load_image w p tw = ([ImageOpen p], inl Py.ImageError).
Proof.
  intros H. unfold load_image. now rewrite (bind_fail _ _ _ _ (Image_open_fail _ _ H)).
Qed.

Lemma target_height_ok img tw a pr th :
  Py.truediv (height img) (width img) = inr a ->
  Py.mul_int_float tw a = inr pr ->
  Py.int_of_float pr = inr th ->
  target_height img tw = ret th.
Proof.
  intros Ha Hp Ht. unfold target_height.
  now rewrite Ha, bind_lift_inr, Hp, bind_lift_inr, Ht.
Qed.

Lemma target_height_inv img tw evs th :
  target_height img tw = (evs, inr th) ->
  evs = [] /\
  exists a pr,
    Py.truediv (height img) (width img) = inr a /\
    Py.mul_int_float tw a = inr pr /\
    Py.int_of_float pr = inr th.
Proof.
  unfold target_height. intros H.
  destruct (Py.truediv (height img) (width img)) as [e|a] eqn:Ha; [discriminate|].
  rewrite bind_lift_inr in H.
  destruct (Py.mul_int_float tw a) as [e|pr] eqn:Hp; [discriminate|].
  rewrite bind_lift_inr in H.
  destruct (Py.int_of_float pr) as [e|th'] eqn:Hi; [discriminate|].
  cbn in H. inversion H; subst. split; [reflexivity|]. exists a, pr. auto.
Qed.

Lemma load_image_resized w p tw img0 th img :
  decode w p = Some img0 -> tw <> 0 ->
  target_height (to_rgb img0) tw = ret th ->
  resize (to_rgb img0) (tw, th) = inr img ->
  load_image w p (Some tw) = ([ImageOpen p], inr img).
Proof.
  intros Hd Hw Ht Hr. unfold load_image.
  rewrite (bind_ok _ _ _ _ (Image_open_ok _ _ _ Hd)).
  apply Z.eqb_neq in Hw. rewrite Hw, Ht, bind_ret, Hr. reflexivity.
Qed.

Lemma load_image_resized_inv w p tw img0 evs img :
  decode w p = Some img0 -> tw <> 0 ->
  load_image w p (Some tw) = (evs, inr img) ->
  exists th,
    target_height (to_rgb img0) tw = ret th /\
    resize (to_rgb img0) (tw, th) = inr img.
Proof.
  intros Hd Hw H. unfold load_image in H.
  rewrite (bind_ok _ _ _ _ (Image_open_ok _ _ _ Hd)) in H.
  apply Z.eqb_neq in Hw. rewrite Hw in H.
  destruct (target_height (to_rgb img0) tw) as [o [e|th]] eqn:Ht.
  - cbn in H. discriminate.
  - destruct (target_height_inv _ _ _ _ Ht) as [-> _].
    exists th. split; [reflexivity|]. cbn in H.
    destruct (resize (to_rgb img0) (tw, th)) as [e|img']; cbn in H.
    + discriminate.
    + now inversion H.
Qed.

End LoadFacts.

(** ** Formatting: facts *)

Lemma append_assoc (a b c : string) : ((a ++ b) ++ c = a ++ b ++ c)%string.
Proof. induction a as [|ch a IH]; simpl; [reflexivity|now rewrite IH]. Qed.

Lemma fold_left_append {A B : Type} (f : A -> B) (l : list A) (init : list B) :
  fold_left (fun acc a => Py.append acc (f a)) l init = (init ++ map f l)%list.
Proof.
  revert init. induction l as [|a l IH]; intros init; simpl.
  - now rewrite app_nil_r.
  - rewrite IH. unfold Py.append. now rewrite <- app_assoc.
Qed.

Lemma join_cons sep (x : string) (l : list string) :
  l <> [] -> Py.join sep (x :: l) = (x ++ sep ++ Py.join sep l)%string.
Proof. destruct l; [congruence|reflexivity]. Qed.

(** Joining lines that are followed by at least one more line: every one
    of them ends up with the separator after it. *)
Lemma join_app sep (rows : list string) (x : string) (rest : list string) :
  Py.join sep (rows ++ x :: rest)
  = (String.concat "" (map (fun r => r ++ sep) rows) ++ Py.join sep (x :: rest))%string.
Proof.
  induction rows as [|r rows IH].
  - reflexivity.
  - change ((r :: rows) ++ x :: rest)%list with (r :: (rows ++ x :: rest))%list.
    rewrite join_cons by (destruct rows; discriminate).
    rewrite IH. cbn [map].
    set (rs := map (fun r0 => (r0 ++ sep)%string) rows).
    destruct rs as [|z rs'].
    + cbn. now rewrite append_assoc.
    + change (String.concat "" ((r ++ sep)%string :: z :: rs'))
        with ((r ++ sep) ++ "" ++ String.concat "" (z :: rs'))%string.
      cbn [append]. now rewrite !append_assoc.
Qed.

(** The lines [format_as_typescript] joins. *)
Lemma format_as_typescript_lines pixels name :
  format_as_typescript pixels name
  = Py.join Py.nl
      (("const " ++ name ++ " = {")%string :: "  pixels: [" ::
       (map (fun row => "    [" ++ Py.join "," (map Py.str row) ++ "],")%string pixels
        ++ "  ]," :: ["};"])%list).
Proof.
  unfold format_as_typescript. rewrite fold_left_append. unfold Py.append.
  cbn [app]. now rewrite <- !app_assoc.
Qed.

Lemma format_as_typescript_logo pixels :
  format_as_typescript pixels "STACK_ATTACK_LOGO" = logo_text pixels.
Proof.
  rewrite format_as_typescript_lines. unfold logo_text.
  rewrite join_cons by discriminate.
  rewrite join_cons by (destruct (map _ pixels); discriminate).
  rewrite join_app, map_map.
  change (Py.join Py.nl ["  ],"; "};"]) with ("  ]," ++ Py.nl ++ "};")%string.
  unfold Py.join.
  rewrite (map_ext
             (fun x => (("    [" ++ String.concat "," (map Py.str x) ++ "],") ++ Py.nl)%string)
             (fun row => ("    [" ++ String.concat "," (map Py.str row) ++ "]," ++ Py.nl)%string)).
  - reflexivity.
  - intros row. now rewrite !append_assoc.
Qed.

(** ** [main]: facts *)

Lemma stdout_lines_app a b :
  stdout_lines (a ++ b) = (stdout_lines a ++ stdout_lines b)%list.
Proof.
  induction a as [|[t|t|q|q] a IH]; simpl; [reflexivity| |assumption..]. now rewrite IH.
Qed.

Section MainFacts.

Context {lib : Library}.

Lemma load_image_events w p tw : events (load_image w p tw) = [ImageOpen p].
Proof.
  destruct (decode w p) as [img0|] eqn:Hd.
  - unfold load_image. rewrite (bind_ok _ _ _ _ (Image_open_ok _ _ _ Hd)).
    unfold events. cbn [fst].
    destruct tw as [tw|]; [|reflexivity].
    destruct (tw =? 0); [reflexivity|].
    unfold target_height.
    destruct (Py.truediv _ _) as [e|a]; [reflexivity|]. rewrite bind_lift_inr.
    destruct (Py.mul_int_float tw a) as [e|pr]; [reflexivity|]. rewrite bind_lift_inr.
    destruct (Py.int_of_float pr) as [e|th]; [reflexivity|]. rewrite bind_lift_inr.
    reflexivity.
  - now rewrite load_image_undecodable.
Qed.

Lemma main_usage w argv :
  Py.len argv < 2 -> main w argv = (map Stdout usage, inl (Py.SystemExit 1)).
Proof.
  intros H. unfold main. apply Z.ltb_lt in H. now rewrite H.
Qed.

Lemma main_bad_int w argv :
  bad_int argv -> main w argv = ([], inl Py.ValueError).
Proof.
  intros H. unfold bad_int in H. unfold main.
  assert (H2 : (Py.len argv <? 2) = false) by (apply Z.ltb_ge; lia).
  assert (H3 : (2 <? Py.len argv) = true) by (apply Z.ltb_lt; lia).
  rewrite H2, H3. unfold int.
  destruct (int_of_str (arg argv 2)) as [n|] eqn:E2; [|reflexivity].
  rewrite bind_ret.
  destruct H as [[_ H]|[H4 H]]; [congruence|].
  apply Z.ltb_lt in H4. now rewrite H4, H.
Qed.

Lemma main_parsed w argv :
  2 <= Py.len argv -> args_parse argv ->
  main w argv = run w (arg argv 1) (threshold_of argv) (target_width_of argv).
Proof.
  intros Hlen [P2 P3]. unfold main, threshold_of, target_width_of, int.
  assert (H2 : (Py.len argv <? 2) = false) by (apply Z.ltb_ge; lia).
  rewrite H2.
  destruct (Z.ltb_spec 2 (Py.len argv)) as [L2|L2].
  - destruct (P2 L2) as [n ->]. rewrite bind_ret.
    destruct (Z.ltb_spec 3 (Py.len argv)) as [L3|L3].
    + destruct (P3 L3) as [m ->]. now rewrite !bind_ret.
    + now rewrite bind_ret.
  - rewrite bind_ret.
    destruct (Z.ltb_spec 3 (Py.len argv)) as [L3|L3]; [lia|].
    now rewrite bind_ret.
Qed.

(** With a path argument, either an optional argument is rejected or all
    that are present parse. *)
Lemma bad_int_or_parse argv : bad_int argv \/ args_parse argv.
Proof.
  unfold bad_int, args_parse.
  destruct (int_of_str (arg argv 2)) as [n|] eqn:E2;
    destruct (int_of_str (arg argv 3)) as [m|] eqn:E3;
    destruct (Z.ltb_spec 2 (Py.len argv));
    destruct (Z.ltb_spec 3 (Py.len argv));
    try (left; (left + right); split; [assumption|reflexivity]);
    right; split; intros; try lia; eauto.
Qed.

Lemma run_missing w p t tw :
  path_exists w p = false ->
  run w p t tw
  = ([PathExists p; Stderr ("Error: File not found: " ++ p)], inl (Py.SystemExit 1)).
Proof. intros H. unfold run, os_path_exists. cbn. now rewrite H. Qed.

Lemma run_load_fail w p t tw evs e :
  path_exists w p = true ->
  load_image w p tw = (evs, inl e) ->
  run w p t tw = (PathExists p :: evs, inl e).
Proof.
  intros H L. unfold run, os_path_exists. cbn. rewrite H. cbn.
  now rewrite (image_to_sprite_fail _ _ _ _ _ _ L).
Qed.

Lemma run_loaded w p t tw evs img :
  path_exists w p = true ->
  load_image w p tw = (evs, inr img) ->
  let pixels := grid img t in
  let filled := sum (map sum pixels) in
  let ratio := Py.truediv filled (width img * height img) in
  run w p t tw
  = ((PathExists p :: evs ++
      [ Stderr (size_line img);
        Stdout (format_as_typescript pixels "STACK_ATTACK_LOGO");
        Stderr (Py.nl ++ "// Dimensions: " ++ Py.str (width img) ++ "x"
                ++ Py.str (height img));
        Stderr ("// Total pixels: " ++ Py.str (width img * height img)) ] ++
      match ratio with
      | inr x => [Stderr ("// Filled pixels: " ++ Py.str filled ++ " ("
                          ++ format_1f (PrimFloat.mul x 100) ++ "%)")]
      | inl _ => []
      end)%list,
     match ratio with inr _ => inr tt | inl e => inl e end).
Proof.
  intros H L. unfold run, os_path_exists. cbn. rewrite H. cbn.
  rewrite (image_to_sprite_ok _ _ t _ _ _ L). cbn.
  destruct (Py.truediv _ _) as [e|x]; cbn; rewrite <- !app_assoc; reflexivity.
Qed.

End MainFacts.

(** * The claims *)

(** ** Resizing (C1, C9) *)

(** C1, as stated, fails: the three-by-one image resized to width 5 gives
    a grid of height 1, the truncation of 5 * (1 / 3), where rounding
    5 * 1 / 3 gives 2. *)
Lemma C1_height_is_not_rounded :
  size Demo.strip = (3, 1) /\
  image_to_sprite (lib := Demo.library) Demo.world "strip.png" 128 (Some 5)
  = ([ImageOpen "strip.png"; Stderr "Image size: 5x1"], inr ([[1; 1; 1; 0; 0]], 5, 1)) /\
  round_div (5 * 1) 3 = 2.
Proof. repeat split; vm_compute; reflexivity. Qed.

(** C1, amended: for an image of size W0 x H0 and a target width W other
    than 0, when the height [int(W * (H0 / W0))] is computed (which needs
    W0 <> 0) and Pillow accepts the size, the conversion produces a grid of
    width exactly W and of that height: the binary64 product truncated
    toward zero, not rounded. *)
Theorem C1_resized_dimensions {lib : Library} w p t W img0 W0 H0 a pr th img :
  decode w p = Some img0 ->
  size img0 = (W0, H0) ->
  W <> 0 ->
  Py.truediv H0 W0 = inr a ->
  Py.mul_int_float W a = inr pr ->
  Py.int_of_float pr = inr th ->
  resize (to_rgb img0) (W, th) = inr img ->
  W0 <> 0 /\
  exists evs pixels,
    image_to_sprite w p t (Some W) = (evs, inr (pixels, W, th)) /\
    List.length pixels = Z.to_nat th /\
    Forall (fun row => List.length row = Z.to_nat W) pixels.
Proof.
  intros Hd Hs HW Ha Hp Hi Hr. split.
  { intros ->. unfold Py.truediv in Ha. discriminate. }
  assert (Hsz : size (to_rgb img0) = (W0, H0)) by now rewrite to_rgb_size.
  assert (Ht : target_height (to_rgb img0) W = ret th).
  { apply (target_height_ok _ _ a pr); try assumption.
    unfold height, width. now rewrite Hsz. }
  pose proof (load_image_resized _ _ _ _ _ _ Hd HW Ht Hr) as L.
  pose proof (resize_size _ _ _ Hr) as S.
  assert (Hw : width img = W) by (unfold width; now rewrite S).
  assert (Hh : height img = th) by (unfold height; now rewrite S).
  exists ([ImageOpen p] ++ [Stderr (size_line img)])%list, (grid img t).
  rewrite (image_to_sprite_ok _ _ t _ _ _ L), Hw, Hh. split; [reflexivity|].
  split.
  - now rewrite grid_rows, Hh.
  - rewrite <- Hw. apply grid_cols.
Qed.

Lemma C1_resized_dimensions_witness :
  3 <> 0 /\
  exists evs pixels,
    image_to_sprite (lib := Demo.library) Demo.world "strip.png" 128 (Some 5)
    = (evs, inr (pixels, 5, 1)) /\
    List.length pixels = Z.to_nat 1 /\
    Forall (fun row => List.length row = Z.to_nat 5) pixels.
Proof.
  eapply (C1_resized_dimensions (lib := Demo.library) Demo.world "strip.png" 128 5
            Demo.strip 3 1).
  - reflexivity.
  - reflexivity.
  - discriminate.
  - vm_compute. reflexivity.
  - vm_compute. reflexivity.
  - vm_compute. reflexivity.
  - reflexivity.
Defined.

(** C9: a target width of 0 is the same as none: no resize happens and
    the grid has the dimensions of the decoded image. *)
Theorem C9_zero_width_is_no_resize {lib : Library} w p t img0 :
  decode w p = Some img0 ->
  image_to_sprite w p t (Some 0) = image_to_sprite w p t None /\
  exists evs pixels,
    image_to_sprite w p t (Some 0) = (evs, inr (pixels, fst (size img0), snd (size img0))) /\
    List.length pixels = Z.to_nat (snd (size img0)) /\
    Forall (fun row => List.length row = Z.to_nat (fst (size img0))) pixels.
Proof.
  intros Hd. split; [reflexivity|].
  pose proof (load_image_unsized _ _ _ Hd) as L.
  rewrite <- load_image_zero in L.
  exists ([ImageOpen p] ++ [Stderr (size_line (to_rgb img0))])%list, (grid (to_rgb img0) t).
  rewrite (image_to_sprite_ok _ _ t _ _ _ L).
  unfold width, height. rewrite to_rgb_size. split; [reflexivity|]. split.
  - rewrite grid_rows. unfold height. now rewrite to_rgb_size.
  - pose proof (grid_cols (to_rgb img0) t) as C. unfold width in C.
    now rewrite to_rgb_size in C.
Qed.

Lemma C9_zero_width_is_no_resize_witness :
  image_to_sprite (lib := Demo.library) Demo.world "strip.png" 128 (Some 0)
  = image_to_sprite (lib := Demo.library) Demo.world "strip.png" 128 None /\
  exists evs pixels,
    image_to_sprite (lib := Demo.library) Demo.world "strip.png" 128 (Some 0)
    = (evs, inr (pixels, 3, 1)) /\
    List.length pixels = Z.to_nat 1 /\
    Forall (fun row => List.length row = Z.to_nat 3) pixels.
Proof.
  apply (C9_zero_width_is_no_resize (lib := Demo.library) Demo.world "strip.png" 128
           Demo.strip).
  reflexivity.
Defined.

(** ** Thresholding (C2, C4, C7) *)

(** C2: whenever the image loads (and, if asked, resizes) to [img], the
    conversion returns a grid whose entry at row y, column x is 1 if the
    mean of the three channels of pixel (x, y) of [img] is strictly below
    the threshold and 0 otherwise; every entry is 0 or 1. *)
Theorem C2_entry_is_brightness_below_threshold {lib : Library} w p t tw evs img :
  load_image w p tw = (evs, inr img) ->
  exists evs' pixels,
    image_to_sprite w p t tw = (evs', inr (pixels, width img, height img)) /\
    Forall (Forall (fun v => v = 0 \/ v = 1)) pixels /\
    forall x y, 0 <= x < width img -> 0 <= y < height img ->
      let v := nth (Z.to_nat x) (nth (Z.to_nat y) pixels []) 2 in
      (v = 1 <-> (brightness (getpixel img (x, y)) < inject_Z t)%Q) /\
      (v = 0 <-> ~ (brightness (getpixel img (x, y)) < inject_Z t)%Q).
Proof.
  intros L.
  exists (evs ++ [Stderr (size_line img)])%list, (grid img t).
  split; [apply (image_to_sprite_ok _ _ t _ _ _ L)|].
  split; [apply grid_bits|].
  intros x y Hx Hy v. subst v. rewrite grid_nth by assumption.
  pose proof (brightness_lt (getpixel img (x, y)) t) as B.
  destruct (foreground_bit (getpixel img (x, y)) t) as [E|E]; rewrite E in *.
  - split; split; try discriminate; try reflexivity.
    + intros H. apply B in H. discriminate.
    + intros _ H. apply B in H. discriminate.
  - split; split; try reflexivity; try discriminate.
    + intros _. now apply B.
    + intros H. exfalso. apply H. now apply B.
Qed.

Lemma C2_entry_is_brightness_below_threshold_witness :
  exists evs' pixels,
    image_to_sprite (lib := Demo.library) Demo.world "logo.png" 128 None
    = (evs', inr (pixels, width Demo.logo, height Demo.logo)) /\
    Forall (Forall (fun v => v = 0 \/ v = 1)) pixels /\
    forall x y, 0 <= x < width Demo.logo -> 0 <= y < height Demo.logo ->
      let v := nth (Z.to_nat x) (nth (Z.to_nat y) pixels []) 2 in
      (v = 1 <-> (brightness (getpixel Demo.logo (x, y)) < inject_Z 128)%Q) /\
      (v = 0 <-> ~ (brightness (getpixel Demo.logo (x, y)) < inject_Z 128)%Q).
Proof.
  apply (C2_entry_is_brightness_below_threshold (lib := Demo.library) Demo.world
           "logo.png" 128 None [ImageOpen "logo.png"] Demo.logo).
  reflexivity.
Defined.

(** C4: whenever the image loads (and, if asked, resizes) to [img], the
    grid produced has exactly [height img] rows, every row has exactly
    [width img] entries, so all rows have the same length. *)
Theorem C4_grid_is_rectangular {lib : Library} w p t tw evs img :
  load_image w p tw = (evs, inr img) ->
  exists evs' pixels,
    image_to_sprite w p t tw = (evs', inr (pixels, width img, height img)) /\
    List.length pixels = Z.to_nat (height img) /\
    Forall (fun row => List.length row = Z.to_nat (width img)) pixels /\
    forall r1 r2, In r1 pixels -> In r2 pixels -> List.length r1 = List.length r2.
Proof.
  intros L.
  exists (evs ++ [Stderr (size_line img)])%list, (grid img t).
  split; [apply (image_to_sprite_ok _ _ t _ _ _ L)|].
  split; [apply grid_rows|]. split; [apply grid_cols|].
  intros r1 r2 H1 H2. pose proof (grid_cols img t) as C.
  rewrite Forall_forall in C. now rewrite (C _ H1), (C _ H2).
Qed.

Lemma C4_grid_is_rectangular_witness :
  exists evs' pixels,
    image_to_sprite (lib := Demo.library) Demo.world "logo.png" 100 None
    = (evs', inr (pixels, width Demo.logo, height Demo.logo)) /\
    List.length pixels = Z.to_nat (height Demo.logo) /\
    Forall (fun row => List.length row = Z.to_nat (width Demo.logo)) pixels /\
    forall r1 r2, In r1 pixels -> In r2 pixels -> List.length r1 = List.length r2.
Proof.
  apply (C4_grid_is_rectangular (lib := Demo.library) Demo.world "logo.png" 100 None
           [ImageOpen "logo.png"] Demo.logo).
  reflexivity.
Defined.

(** C7: with threshold 0, whenever the image loads (and, if asked,
    resizes) to [img], the conversion produces the grid of [img], with
    [height img] rows of [width img] entries, and every entry of it is 0:
    the entry at every row y and column x of the image is 0. *)
Theorem C7_threshold_zero_gives_zeros {lib : Library} w p tw evs img :
  load_image w p tw = (evs, inr img) ->
  exists evs' pixels,
    image_to_sprite w p 0 tw = (evs', inr (pixels, width img, height img)) /\
    List.length pixels = Z.to_nat (height img) /\
    Forall (fun row => List.length row = Z.to_nat (width img)) pixels /\
    Forall (Forall (fun v => v = 0)) pixels /\
    forall x y, 0 <= x < width img -> 0 <= y < height img ->
      nth (Z.to_nat x) (nth (Z.to_nat y) pixels []) 2 = 0.
Proof.
  intros L.
  exists (evs ++ [Stderr (size_line img)])%list, (grid img 0).
  split; [apply (image_to_sprite_ok _ _ 0 _ _ _ L)|].
  split; [apply grid_rows|]. split; [apply grid_cols|].
  split; [apply grid_zero|].
  intros x y Hx Hy. rewrite grid_nth by assumption. apply foreground_zero.
Qed.

Lemma C7_threshold_zero_gives_zeros_witness :
  exists evs' pixels,
    image_to_sprite (lib := Demo.library) Demo.world "strip.png" 0 None
    = (evs', inr (pixels, width Demo.strip, height Demo.strip)) /\
    List.length pixels = Z.to_nat (height Demo.strip) /\
    Forall (fun row => List.length row = Z.to_nat (width Demo.strip)) pixels /\
    Forall (Forall (fun v => v = 0)) pixels /\
    forall x y, 0 <= x < width Demo.strip -> 0 <= y < height Demo.strip ->
      nth (Z.to_nat x) (nth (Z.to_nat y) pixels []) 2 = 0.
Proof.
  apply (C7_threshold_zero_gives_zeros (lib := Demo.library) Demo.world "strip.png" None
           [ImageOpen "strip.png"] Demo.strip).
  reflexivity.
Defined.

(** ** The command line (C3, C5, C6, C8, C10) *)

(** C3, as stated, fails on the usage path: called without a path, the
    script prints its three usage lines with plain [print], that is to
    standard output, and exits with status 1. *)
Lemma C3_usage_goes_to_stdout :
  exit_status (main (lib := Demo.library) Demo.world ["image_to_sprite.py"]) = 1 /\
  stdout_lines (events (main (lib := Demo.library) Demo.world ["image_to_sprite.py"]))
  = usage /\
  String.length
    (stdout_text (events (main (lib := Demo.library) Demo.world ["image_to_sprite.py"])))
  = 192%nat.
Proof. repeat split; vm_compute; reflexivity. Qed.

(** C3, amended: with a path argument, standard output is all or
    nothing: it is empty or it is exactly the full formatted literal; and
    when the file does not exist or does not decode, it is empty and the
    exit status is 1. *)
Theorem C3_stdout_is_all_or_nothing {lib : Library} w argv :
  2 <= Py.len argv ->
  (stdout_lines (events (main w argv)) = [] \/
   exists pixels,
     stdout_lines (events (main w argv))
     = [format_as_typescript pixels "STACK_ATTACK_LOGO"]) /\
  (path_exists w (arg argv 1) = false \/ decode w (arg argv 1) = None ->
   stdout_lines (events (main w argv)) = [] /\ exit_status (main w argv) = 1).
Proof.
  intros Hlen.
  destruct (bad_int_or_parse argv) as [Hbad|Hparse].
  { rewrite (main_bad_int _ _ Hbad). split; [now left|now intros _]. }
  rewrite (main_parsed _ _ Hlen Hparse).
  set (p := arg argv 1). set (t := threshold_of argv). set (tw := target_width_of argv).
  destruct (path_exists w p) eqn:Hex.
  - pose proof (load_image_events w p tw) as Ev.
    destruct (load_image w p tw) as [evs [e|img]] eqn:L;
      unfold events in Ev; cbn [fst] in Ev; subst evs.
    + rewrite (run_load_fail _ _ _ _ _ _ Hex L).
      split; [now left|]. intros [H|H]; [discriminate|].
      rewrite (load_image_undecodable _ _ _ H) in L. inversion L; subst.
      now split.
    + rewrite (run_loaded _ _ t _ _ _ Hex L). split.
      * right. exists (grid img t).
        destruct (Py.truediv _ _); reflexivity.
      * intros [H|H]; [discriminate|].
        rewrite (load_image_undecodable _ _ _ H) in L. discriminate.
  - rewrite (run_missing _ _ _ _ Hex). split; [now left|now intros _].
Qed.

Lemma C3_stdout_is_all_or_nothing_witness :
  decode Demo.world "notes.txt" = None /\
  stdout_lines
    (events (main (lib := Demo.library) Demo.world ["image_to_sprite.py"; "notes.txt"]))
  = [] /\
  exit_status (main (lib := Demo.library) Demo.world ["image_to_sprite.py"; "notes.txt"])
  = 1.
Proof.
  split; [reflexivity|].
  apply (C3_stdout_is_all_or_nothing (lib := Demo.library) Demo.world
           ["image_to_sprite.py"; "notes.txt"]).
  - vm_compute. discriminate.
  - right. reflexivity.
Defined.

(** C5: on success (the arguments parse, the file exists, the image loads)
    standard output is exactly the literal: the line
    [const STACK_ATTACK_LOGO = {], the line [  pixels: [], one line
    [    [v,v,...],] per grid row in order, each the comma-joined entries of
    the row in order, then [  ],] and [};]; and that is what
    [format_as_typescript] gives for every grid. *)
Theorem C5_named_constant_shape {lib : Library} w argv evs img :
  2 <= Py.len argv ->
  args_parse argv ->
  path_exists w (arg argv 1) = true ->
  load_image w (arg argv 1) (target_width_of argv) = (evs, inr img) ->
  stdout_text (events (main w argv))
  = (logo_text (grid img (threshold_of argv)) ++ Py.nl)%string /\
  forall pixels, format_as_typescript pixels "STACK_ATTACK_LOGO" = logo_text pixels.
Proof.
  intros Hlen Hparse Hex L. split; [|apply format_as_typescript_logo].
  rewrite (main_parsed _ _ Hlen Hparse), (run_loaded _ _ _ _ _ _ Hex L).
  pose proof (load_image_events w (arg argv 1) (target_width_of argv)) as Ev.
  rewrite L in Ev. unfold events in Ev. cbn [fst] in Ev. subst evs.
  rewrite format_as_typescript_logo. unfold stdout_text, events.
  destruct (Py.truediv _ _); reflexivity.
Qed.

Lemma C5_named_constant_shape_witness :
  stdout_text
    (events (main (lib := Demo.library) Demo.world ["image_to_sprite.py"; "logo.png"; "128"]))
  = (logo_text (grid Demo.logo 128) ++ Py.nl)%string /\
  forall pixels, format_as_typescript pixels "STACK_ATTACK_LOGO" = logo_text pixels.
Proof.
  apply (C5_named_constant_shape (lib := Demo.library) Demo.world
           ["image_to_sprite.py"; "logo.png"; "128"] [ImageOpen "logo.png"] Demo.logo).
  - vm_compute. discriminate.
  - split; intros H; vm_compute in H; try discriminate. exists 128. reflexivity.
  - reflexivity.
  - reflexivity.
Defined.

(** C6, as stated, fails when an optional argument is not an integer: the
    path does not exist, yet the run ends with [ValueError] from [int]
    before the existence check, with no message of the script. *)
Lemma C6_bad_threshold_hides_missing_file :
  path_exists Demo.world "nope.png" = false /\
  main (lib := Demo.library) Demo.world ["image_to_sprite.py"; "nope.png"; "abc"]
  = ([], inl Py.ValueError).
Proof. split; vm_compute; reflexivity. Qed.

(** C6, amended: for every path argument that does not exist, when the
    optional arguments that are present are integers, the run checks the
    path, writes [Error: File not found: <path>] to [sys.stderr] and
    exits with status 1; standard output stays empty and [Image.open] is
    never called. *)
Theorem C6_missing_file {lib : Library} w argv :
  2 <= Py.len argv ->
  args_parse argv ->
  path_exists w (arg argv 1) = false ->
  main w argv
  = ([PathExists (arg argv 1); Stderr ("Error: File not found: " ++ arg argv 1)],
     inl (Py.SystemExit 1)) /\
  exit_status (main w argv) = 1 /\
  stderr_lines (events (main w argv)) = ["Error: File not found: " ++ arg argv 1]%string /\
  stdout_text (events (main w argv)) = ""%string /\
  forall q, ~ In (ImageOpen q) (events (main w argv)).
Proof.
  intros Hlen Hparse Hex.
  rewrite (main_parsed _ _ Hlen Hparse), (run_missing _ _ _ _ Hex).
  repeat split. intros q [H|[H|[]]]; discriminate.
Qed.

Lemma C6_missing_file_witness :
  main (lib := Demo.library) Demo.world ["image_to_sprite.py"; "nope.png"; "200"]
  = ([PathExists "nope.png"; Stderr "Error: File not found: nope.png"],
     inl (Py.SystemExit 1)) /\
  exit_status (main (lib := Demo.library) Demo.world ["image_to_sprite.py"; "nope.png"; "200"])
  = 1 /\
  stderr_lines
    (events (main (lib := Demo.library) Demo.world ["image_to_sprite.py"; "nope.png"; "200"]))
  = ["Error: File not found: nope.png"] /\
  stdout_text
    (events (main (lib := Demo.library) Demo.world ["image_to_sprite.py"; "nope.png"; "200"]))
  = ""%string /\
  forall q,
    ~ In (ImageOpen q)
      (events (main (lib := Demo.library) Demo.world ["image_to_sprite.py"; "nope.png"; "200"])).
Proof.
  apply (C6_missing_file (lib := Demo.library) Demo.world
           ["image_to_sprite.py"; "nope.png"; "200"]).
  - vm_compute. discriminate.
  - split; intros H; vm_compute in H; try discriminate. exists 200. reflexivity.
  - reflexivity.
Defined.

(** C8: the run is a function of the image data and the arguments: two
    file systems that agree on whether the path exists and on what it
    decodes to give the same run, so the same bytes on standard output. *)
Theorem C8_same_input_same_output {lib : Library} w1 w2 argv :
  path_exists w1 (arg argv 1) = path_exists w2 (arg argv 1) ->
  decode w1 (arg argv 1) = decode w2 (arg argv 1) ->
  main w1 argv = main w2 argv /\
  stdout_text (events (main w1 argv)) = stdout_text (events (main w2 argv)).
Proof.
  intros Hex Hdec.
  assert (E : main w1 argv = main w2 argv); [|now rewrite E].
  destruct (Z.lt_ge_cases (Py.len argv) 2) as [Hlen|Hlen].
  { now rewrite !(main_usage _ _ Hlen). }
  destruct (bad_int_or_parse argv) as [Hbad|Hparse].
  { now rewrite !(main_bad_int _ _ Hbad). }
  rewrite !(main_parsed _ _ Hlen Hparse).
  unfold run, os_path_exists, image_to_sprite, load_image, Image_open.
  now rewrite Hex, Hdec.
Qed.

Lemma C8_same_input_same_output_witness :
  main (lib := Demo.library) Demo.world ["image_to_sprite.py"; "strip.png"; "128"; "5"]
  = main (lib := Demo.library) Demo.other_world ["image_to_sprite.py"; "strip.png"; "128"; "5"] /\
  stdout_text
    (events (main (lib := Demo.library) Demo.world
               ["image_to_sprite.py"; "strip.png"; "128"; "5"]))
  = stdout_text
      (events (main (lib := Demo.library) Demo.other_world
                 ["image_to_sprite.py"; "strip.png"; "128"; "5"])).
Proof.
  apply (C8_same_input_same_output (lib := Demo.library) Demo.world Demo.other_world
           ["image_to_sprite.py"; "strip.png"; "128"; "5"]); reflexivity.
Defined.

(** C10: when the threshold or the width argument is present and [int]
    rejects it, the run ends with the uncaught [ValueError] before anything
    else happens: no existence check, no message of the script on either
    stream (so no usage text and no "File not found"), exit status 1,
    whether or not the path exists. *)
Theorem C10_bad_integer_fails_first {lib : Library} w argv :
  bad_int argv ->
  main w argv = ([], inl Py.ValueError) /\
  exit_status (main w argv) = 1 /\
  stderr_lines (events (main w argv)) = [] /\
  stdout_lines (events (main w argv)) = [] /\
  forall q, ~ In (PathExists q) (events (main w argv)).
Proof.
  intros H. rewrite (main_bad_int _ _ H). repeat split. intros q [].
Qed.

Lemma C10_bad_integer_fails_first_witness :
  main (lib := Demo.library) Demo.world ["image_to_sprite.py"; "nope.png"; "128"; "wide"]
  = ([], inl Py.ValueError) /\
  exit_status
    (main (lib := Demo.library) Demo.world ["image_to_sprite.py"; "nope.png"; "128"; "wide"])
  = 1 /\
  stderr_lines
    (events (main (lib := Demo.library) Demo.world
               ["image_to_sprite.py"; "nope.png"; "128"; "wide"])) = [] /\
  stdout_lines
    (events (main (lib := Demo.library) Demo.world
               ["image_to_sprite.py"; "nope.png"; "128"; "wide"])) = [] /\
  forall q,
    ~ In (PathExists q)
      (events (main (lib := Demo.library) Demo.world
                 ["image_to_sprite.py"; "nope.png"; "128"; "wide"])).
Proof.
  apply (C10_bad_integer_fails_first (lib := Demo.library) Demo.world
           ["image_to_sprite.py"; "nope.png"; "128"; "wide"]).
  right. split; [vm_compute|]; reflexivity.
Defined.

(** * Further properties of the script *)

(** ** The two text forms *)

Lemma format_as_compact_lines pixels :
  format_as_compact pixels
  = Py.join Py.nl
      ("[" :: (map (fun row => "  [" ++ Py.join "," (map Py.str row) ++ "],")%string pixels
               ++ ["]"])%list).
Proof.
  unfold format_as_compact. rewrite fold_left_append. unfold Py.append.
  reflexivity.
Qed.

Lemma scan_app a b st : scan (a ++ b) st = scan b (scan a st).
Proof. revert st. induction a as [|c a IH]; intros st; simpl; [reflexivity|apply IH]. Qed.

Lemma scan_comma s st : scan (String "," s) st = scan s st.
Proof. now destruct st. Qed.

Lemma scan_open s st : scan (String "[" s) st = scan s st.
Proof. now destruct st. Qed.

Lemma scan_bit v rows cur :
  bit v -> scan (Py.str v) (rows, cur) = (rows, (cur ++ [v])%list).
Proof. intros [-> | ->]; reflexivity. Qed.

Lemma scan_joined_bits row : forall x rows cur,
  bit x -> Forall bit row ->
  scan (Py.join "," (map Py.str (x :: row))) (rows, cur) = (rows, (cur ++ x :: row)%list).
Proof.
  induction row as [|y row IH]; intros x rows cur Hx Hrow.
  - cbn [map]. unfold Py.join. cbn [String.concat]. now apply scan_bit.
  - cbn [map]. rewrite join_cons by discriminate.
    rewrite scan_app, (scan_bit _ _ _ Hx).
    change ("," ++ Py.join "," (Py.str y :: map Py.str row))%string
      with (String "," (Py.join "," (map Py.str (y :: row)))).
    rewrite scan_comma.
    inversion Hrow; subst.
    rewrite IH by assumption. now rewrite <- app_assoc.
Qed.

Lemma scan_row row rows :
  Forall bit row ->
  scan (Py.join "," (map Py.str row)) (rows, []) = (rows, row).
Proof.
  destruct row as [|x row]; intros H; [reflexivity|].
  inversion H; subst. now rewrite scan_joined_bits.
Qed.

(** Scanning the rows of a literal, whatever blanks [indent] come before
    the bracket of each row. *)
Lemma scan_rows indent pixels : forall rows,
  (forall st, scan indent st = st) ->
  bits pixels ->
  scan (String.concat ""
          (map (fun row => indent ++ "[" ++ String.concat "," (map Py.str row)
                           ++ "]," ++ Py.nl)%string pixels))
       (rows, [])
  = ((rows ++ pixels)%list, []).
Proof.
  intros rows Hind Hbits. revert rows.
  induction pixels as [|row pixels IH]; intros rows.
  - cbn. now rewrite app_nil_r.
  - inversion Hbits; subst.
    assert (E : forall tail,
               scan ((indent ++ "[" ++ String.concat "," (map Py.str row) ++ "]," ++ Py.nl)
                     ++ tail)%string (rows, [])
               = scan tail ((rows ++ [row])%list, [])).
    { intros tail. rewrite scan_app, scan_app, Hind.
      change ("[" ++ String.concat "," (map Py.str row) ++ "]," ++ Py.nl)%string
        with (String "[" (Py.join "," (map Py.str row) ++ "]," ++ Py.nl))%string.
      rewrite scan_open, scan_app, scan_row by assumption. reflexivity. }
    cbn [map].
    destruct (map _ pixels) as [|z zs] eqn:Em.
    + destruct pixels; [|discriminate]. cbn [String.concat].
      specialize (E ""%string).
      assert (A : forall s : string, (s ++ "")%string = s)
        by (induction s as [|c s I]; simpl; [reflexivity|now rewrite I]).
      rewrite A in E. exact E.
    + change (String.concat "" (?a :: z :: zs))
        with (a ++ "" ++ String.concat "" (z :: zs))%string.
      cbn [append].
      rewrite E, IH by assumption. now rewrite <- app_assoc.
Qed.

Lemma scan_blanks2 st : scan "  " st = st.
Proof. now destruct st. Qed.

Lemma scan_blanks4 st : scan "    " st = st.
Proof. now destruct st. Qed.

Lemma read_grid_logo_text pixels : bits pixels -> read_grid (logo_text pixels) = pixels.
Proof.
  intros Hbits. unfold logo_text, read_grid.
  change (map (fun row => "    [" ++ String.concat "," (map Py.str row) ++ "]," ++ Py.nl)%string
              pixels)
    with (map (fun row => "    " ++ "[" ++ String.concat "," (map Py.str row) ++ "]," ++ Py.nl)%string
              pixels).
  rewrite !scan_app.
  change (scan "const STACK_ATTACK_LOGO = {" ([], [])) with (@nil (list Z), @nil Z).
  change (scan Py.nl ([], [])) with (@nil (list Z), @nil Z).
  change (scan "  pixels: [" ([], [])) with (@nil (list Z), @nil Z).
  change (scan Py.nl ([], [])) with (@nil (list Z), @nil Z).
  rewrite (scan_rows "    " pixels [] scan_blanks4 Hbits).
  cbn. now rewrite removelast_last.
Qed.

Lemma read_grid_compact_text pixels :
  bits pixels -> read_grid (compact_text pixels) = pixels.
Proof.
  intros Hbits. unfold compact_text, read_grid.
  change (map (fun row => "  [" ++ String.concat "," (map Py.str row) ++ "]," ++ Py.nl)%string
              pixels)
    with (map (fun row => "  " ++ "[" ++ String.concat "," (map Py.str row) ++ "]," ++ Py.nl)%string
              pixels).
  rewrite !scan_app.
  change (scan "[" ([], [])) with (@nil (list Z), @nil Z).
  change (scan Py.nl ([], [])) with (@nil (list Z), @nil Z).
  rewrite (scan_rows "  " pixels [] scan_blanks2 Hbits).
  cbn. now rewrite removelast_last.
Qed.

Lemma format_as_compact_text pixels : format_as_compact pixels = compact_text pixels.
Proof.
  rewrite format_as_compact_lines. unfold compact_text.
  rewrite join_cons by (destruct (map _ pixels); discriminate).
  rewrite join_app, map_map.
  change (Py.join Py.nl ["]"]) with "]".
  unfold Py.join.
  rewrite (map_ext
             (fun x => (("  [" ++ String.concat "," (map Py.str x) ++ "],") ++ Py.nl)%string)
             (fun row => ("  [" ++ String.concat "," (map Py.str row) ++ "]," ++ Py.nl)%string)).
  - reflexivity.
  - intros row. now rewrite !append_assoc.
Qed.

Ltac bits_tac :=
  unfold bits, bit;
  repeat first [ apply Forall_nil | apply Forall_cons
               | left; reflexivity | right; reflexivity ].

(** [format_as_compact] gives an opening bracket, one indented bracketed
    row per grid row, each with a trailing comma, and a closing bracket;
    the empty grid gives the two brackets on two lines. *)
Theorem format_as_compact_shape pixels :
  format_as_compact pixels = compact_text pixels /\
  format_as_compact [] = ("[" ++ Py.nl ++ "]")%string.
Proof. split; [apply format_as_compact_text|reflexivity]. Qed.

(** The named-constant text carries the whole grid: reading the entries
    of [format_as_typescript pixels "STACK_ATTACK_LOGO"] back, row by row,
    gives [pixels] again, for every grid of 0s and 1s (empty rows and the
    empty grid included). *)
Theorem format_as_typescript_read_back pixels :
  bits pixels ->
  read_grid (format_as_typescript pixels "STACK_ATTACK_LOGO") = pixels.
Proof.
  intros Hbits. rewrite format_as_typescript_logo. now apply read_grid_logo_text.
Qed.

Lemma format_as_typescript_read_back_witness :
  read_grid (format_as_typescript [[1; 0]; [0; 1]; []] "STACK_ATTACK_LOGO")
  = [[1; 0]; [0; 1]; []].
Proof.
  apply format_as_typescript_read_back. bits_tac.
Defined.

(** The compact text carries the whole grid as well: reading the entries
    of [format_as_compact pixels] back gives [pixels], so the two forms
    hold the same grid. *)
Theorem format_as_compact_read_back pixels :
  bits pixels ->
  read_grid (format_as_compact pixels) = pixels /\
  read_grid (format_as_compact pixels)
  = read_grid (format_as_typescript pixels "STACK_ATTACK_LOGO").
Proof.
  intros Hbits.
  rewrite format_as_compact_text, format_as_typescript_logo.
  rewrite read_grid_compact_text, read_grid_logo_text by assumption. now split.
Qed.

Lemma format_as_compact_read_back_witness :
  read_grid (format_as_compact [[1; 0]; []; [1]]) = [[1; 0]; []; [1]] /\
  read_grid (format_as_compact [[1; 0]; []; [1]])
  = read_grid (format_as_typescript [[1; 0]; []; [1]] "STACK_ATTACK_LOGO").
Proof.
  apply format_as_compact_read_back. bits_tac.
Defined.

(** ** The grid and the threshold *)

Lemma foreground_high px t : 255 < t -> foreground px t = 1.
Proof.
  intros H. destruct px as [[r g] b]. unfold foreground.
  pose proof (channel_bounds r). pose proof (channel_bounds g).
  pose proof (channel_bounds b).
  destruct (Z.ltb_spec (channel r + channel g + channel b) (3 * t)); [reflexivity|lia].
Qed.

Lemma foreground_mono px t1 t2 : t1 <= t2 -> foreground px t1 <= foreground px t2.
Proof.
  intros H. destruct px as [[r g] b]. unfold foreground.
  destruct (Z.ltb_spec (channel r + channel g + channel b) (3 * t1));
    destruct (Z.ltb_spec (channel r + channel g + channel b) (3 * t2)); lia.
Qed.

Lemma Forall2_map_same {A B : Type} (R : B -> B -> Prop) (f g : A -> B) l :
  (forall a, R (f a) (g a)) -> Forall2 R (map f l) (map g l).
Proof. intros H. induction l; simpl; constructor; auto. Qed.

Lemma fold_left_add l : forall a, fold_left Z.add l a = a + sum l.
Proof.
  unfold sum. induction l as [|x l IH]; intros a; simpl; [lia|].
  rewrite IH, (IH x). lia.
Qed.

Lemma sum_cons x l : sum (x :: l) = x + sum l.
Proof. unfold sum at 1. simpl. now rewrite fold_left_add. Qed.

Lemma sum_bits l :
  Forall bit l -> sum l = Z.of_nat (count_occ Z.eq_dec l 1).
Proof.
  induction 1 as [|x l Hx _ IH]; [reflexivity|].
  rewrite sum_cons, IH. simpl.
  destruct Hx as [-> | ->]; destruct (Z.eq_dec _ 1); try lia; congruence.
Qed.

Lemma sum_rows pixels : bits pixels -> sum (map sum pixels) = Z.of_nat (ones pixels).
Proof.
  unfold ones. induction 1 as [|row pixels Hrow _ IH]; [reflexivity|].
  cbn [map List.concat]. rewrite sum_cons, IH, (sum_bits _ Hrow), count_occ_app. lia.
Qed.

Lemma concat_length_rect (pixels : list (list Z)) n :
  Forall (fun row => List.length row = n) pixels ->
  List.length (List.concat pixels) = (List.length pixels * n)%nat.
Proof.
  induction 1 as [|row pixels Hrow _ IH]; [reflexivity|].
  cbn [List.concat List.length]. rewrite length_app, IH, Hrow. lia.
Qed.

Section GridFacts.

Context {lib : Library}.

(** With a threshold above 255 every pixel is foreground: whenever the image
    loads (and, if asked, resizes) to [img], the conversion produces the
    grid of [img], with [height img] rows of [width img] entries, and the
    entry at every row y and column x of the image is 1. *)
Theorem threshold_above_255_gives_ones w p t tw evs img :
  255 < t ->
  load_image w p tw = (evs, inr img) ->
  exists evs' pixels,
    image_to_sprite w p t tw = (evs', inr (pixels, width img, height img)) /\
    List.length pixels = Z.to_nat (height img) /\
    Forall (fun row => List.length row = Z.to_nat (width img)) pixels /\
    Forall (Forall (fun v => v = 1)) pixels /\
    forall x y, 0 <= x < width img -> 0 <= y < height img ->
      nth (Z.to_nat x) (nth (Z.to_nat y) pixels []) 2 = 1.
Proof.
  intros Ht L.
  exists (evs ++ [Stderr (size_line img)])%list, (grid img t).
  split; [apply (image_to_sprite_ok _ _ t _ _ _ L)|].
  split; [apply grid_rows|]. split; [apply grid_cols|]. split.
  - unfold grid. apply Forall_map, Forall_forall. intros y _.
    apply Forall_map, Forall_forall. intros x _. now apply foreground_high.
  - intros x y Hx Hy. rewrite grid_nth by assumption. now apply foreground_high.
Qed.

(** Raising the threshold never clears a pixel: on the same image, the
    grid for the lower threshold is entry by entry below the grid for the
    higher one, and both have the same shape. *)
Theorem raising_threshold_only_fills w p t1 t2 tw evs img :
  t1 <= t2 ->
  load_image w p tw = (evs, inr img) ->
  exists evs' pixels1 pixels2,
    image_to_sprite w p t1 tw = (evs', inr (pixels1, width img, height img)) /\
    image_to_sprite w p t2 tw = (evs', inr (pixels2, width img, height img)) /\
    Forall2 (Forall2 Z.le) pixels1 pixels2.
Proof.
  intros Ht L.
  exists (evs ++ [Stderr (size_line img)])%list, (grid img t1), (grid img t2).
  split; [apply (image_to_sprite_ok _ _ t1 _ _ _ L)|].
  split; [apply (image_to_sprite_ok _ _ t2 _ _ _ L)|].
  unfold grid. apply Forall2_map_same. intros y.
  apply Forall2_map_same. intros x. now apply foreground_mono.
Qed.

(** The count [main] reports as filled, [sum(sum(row) for row in pixels)],
    is the number of entries equal to 1 and lies between 0 and
    [width * height]. *)
Theorem filled_pixels_is_a_count w p t tw evs img :
  load_image w p tw = (evs, inr img) ->
  0 <= width img -> 0 <= height img ->
  exists evs' pixels,
    image_to_sprite w p t tw = (evs', inr (pixels, width img, height img)) /\
    sum (map sum pixels) = Z.of_nat (ones pixels) /\
    0 <= sum (map sum pixels) <= width img * height img.
Proof.
  intros L Hw Hh.
  exists (evs ++ [Stderr (size_line img)])%list, (grid img t).
  split; [apply (image_to_sprite_ok _ _ t _ _ _ L)|].
  assert (S : sum (map sum (grid img t)) = Z.of_nat (ones (grid img t)))
    by (apply sum_rows, grid_bits).
  split; [exact S|]. rewrite S. split; [lia|].
  unfold ones.
  pose proof (count_occ_bound Z.eq_dec 1 (List.concat (grid img t))) as B.
  rewrite (concat_length_rect _ _ (grid_cols img t)), grid_rows in B. nia.
Qed.

End GridFacts.

Lemma threshold_above_255_gives_ones_witness :
  exists evs' pixels,
    image_to_sprite (lib := Demo.library) Demo.world "strip.png" 256 None
    = (evs', inr (pixels, width Demo.strip, height Demo.strip)) /\
    List.length pixels = Z.to_nat (height Demo.strip) /\
    Forall (fun row => List.length row = Z.to_nat (width Demo.strip)) pixels /\
    Forall (Forall (fun v => v = 1)) pixels /\
    forall x y, 0 <= x < width Demo.strip -> 0 <= y < height Demo.strip ->
      nth (Z.to_nat x) (nth (Z.to_nat y) pixels []) 2 = 1.
Proof.
  apply (threshold_above_255_gives_ones (lib := Demo.library) Demo.world "strip.png" 256
           None [ImageOpen "strip.png"] Demo.strip).
  - reflexivity.
  - reflexivity.
Defined.

Lemma raising_threshold_only_fills_witness :
  exists evs' pixels1 pixels2,
    image_to_sprite (lib := Demo.library) Demo.world "strip.png" 100 None
    = (evs', inr (pixels1, width Demo.strip, height Demo.strip)) /\
    image_to_sprite (lib := Demo.library) Demo.world "strip.png" 128 None
    = (evs', inr (pixels2, width Demo.strip, height Demo.strip)) /\
    Forall2 (Forall2 Z.le) pixels1 pixels2.
Proof.
  apply (raising_threshold_only_fills (lib := Demo.library) Demo.world "strip.png" 100 128
           None [ImageOpen "strip.png"] Demo.strip).
  - discriminate.
  - reflexivity.
Defined.

Lemma filled_pixels_is_a_count_witness :
  exists evs' pixels,
    image_to_sprite (lib := Demo.library) Demo.world "logo.png" 128 None
    = (evs', inr (pixels, width Demo.logo, height Demo.logo)) /\
    sum (map sum pixels) = Z.of_nat (ones pixels) /\
    0 <= sum (map sum pixels) <= width Demo.logo * height Demo.logo.
Proof.
  apply (filled_pixels_is_a_count (lib := Demo.library) Demo.world "logo.png" 128 None
           [ImageOpen "logo.png"] Demo.logo).
  - reflexivity.
  - discriminate.
  - discriminate.
Defined.

(** ** Loading: edge cases *)

Section LoadEdges.

Context {lib : Library}.

(** Without a target width, an image that is already RGB is used as it
    is decoded: the grid has the dimensions of the file's image and its
    entries are computed from the file's own pixels; the only diagnostic
    is the size line. *)
Theorem no_target_width_keeps_the_image w p t img0 :
  decode w p = Some img0 ->
  mode img0 = "RGB"%string ->
  image_to_sprite w p t None
  = ([ImageOpen p; Stderr (size_line img0)],
     inr (grid img0 t, width img0, height img0)).
Proof.
  intros Hd Hm.
  assert (E : to_rgb img0 = img0) by (unfold to_rgb; now rewrite Hm).
  pose proof (load_image_unsized _ _ _ Hd) as L. rewrite E in L.
  now rewrite (image_to_sprite_ok _ _ t _ _ _ L).
Qed.

(** Asking for a target width on an image of width 0 ends with
    [ZeroDivisionError] from line 32, right after the file was opened:
    no size line is written and no grid is returned. *)
Theorem target_width_on_zero_width_image w p t tw img0 :
  decode w p = Some img0 ->
  width img0 = 0 ->
  tw <> 0 ->
  image_to_sprite w p t (Some tw) = ([ImageOpen p], inl Py.ZeroDivisionError).
Proof.
  intros Hd Hw Htw.
  apply image_to_sprite_fail. unfold load_image.
  rewrite (bind_ok _ _ _ _ (Image_open_ok _ _ _ Hd)).
  apply Z.eqb_neq in Htw. rewrite Htw.
  unfold target_height, width. rewrite to_rgb_size.
  unfold width in Hw. rewrite Hw. reflexivity.
Qed.

End LoadEdges.

Lemma no_target_width_keeps_the_image_witness :
  image_to_sprite (lib := Demo.library) Demo.world "logo.png" 128 None
  = ([ImageOpen "logo.png"; Stderr (size_line Demo.logo)],
     inr (grid Demo.logo 128, width Demo.logo, height Demo.logo)).
Proof.
  apply (no_target_width_keeps_the_image (lib := Demo.library) Demo.world "logo.png" 128
           Demo.logo); reflexivity.
Defined.

Lemma target_width_on_zero_width_image_witness :
  image_to_sprite (lib := Demo.library) Edge.world "blank.png" 128 (Some 16)
  = ([ImageOpen "blank.png"], inl Py.ZeroDivisionError).
Proof.
  apply (target_width_on_zero_width_image (lib := Demo.library) Edge.world "blank.png" 128
           16 Edge.blank).
  - reflexivity.
  - reflexivity.
  - discriminate.
Defined.

(** ** [main]: the runs *)

Section MainRuns.

Context {lib : Library}.

(** A successful run: the arguments parse, the file exists, the image
    loads with at least one pixel.  The run checks the path, opens the
    file, writes the size line, prints the literal as its only output on
    standard output, writes the three summary lines, and exits with 0. *)
Theorem main_success w argv evs img ratio :
  2 <= Py.len argv ->
  args_parse argv ->
  path_exists w (arg argv 1) = true ->
  load_image w (arg argv 1) (target_width_of argv) = (evs, inr img) ->
  let pixels := grid img (threshold_of argv) in
  let filled := sum (map sum pixels) in
  Py.truediv filled (width img * height img) = inr ratio ->
  main w argv
  = ([ PathExists (arg argv 1);
       ImageOpen (arg argv 1);
       Stderr (size_line img);
       Stdout (format_as_typescript pixels "STACK_ATTACK_LOGO");
       Stderr (Py.nl ++ "// Dimensions: " ++ Py.str (width img) ++ "x"
               ++ Py.str (height img));
       Stderr ("// Total pixels: " ++ Py.str (width img * height img));
       Stderr ("// Filled pixels: " ++ Py.str filled ++ " ("
               ++ format_1f (PrimFloat.mul ratio 100) ++ "%)") ],
     inr tt) /\
  exit_status (main w argv) = 0 /\
  width img * height img <> 0.
Proof.
  intros Hlen Hparse Hex L pixels filled Hr.
  pose proof (load_image_events w (arg argv 1) (target_width_of argv)) as Ev.
  rewrite L in Ev. unfold events in Ev. cbn [fst] in Ev. subst evs.
  rewrite (main_parsed _ _ Hlen Hparse), (run_loaded _ _ _ _ _ _ Hex L).
  fold pixels. fold filled. rewrite Hr. repeat split.
  intros Z0. rewrite Z0 in Hr. discriminate.
Qed.

(** An image without pixels: the literal is printed in full, the first
    two summary lines are written, and then the percentage of line 108
    divides by zero: the run ends with [ZeroDivisionError] and exit
    status 1, after its output. *)
Theorem main_on_image_without_pixels w argv evs img :
  2 <= Py.len argv ->
  args_parse argv ->
  path_exists w (arg argv 1) = true ->
  load_image w (arg argv 1) (target_width_of argv) = (evs, inr img) ->
  width img * height img = 0 ->
  let pixels := grid img (threshold_of argv) in
  main w argv
  = ([ PathExists (arg argv 1);
       ImageOpen (arg argv 1);
       Stderr (size_line img);
       Stdout (format_as_typescript pixels "STACK_ATTACK_LOGO");
       Stderr (Py.nl ++ "// Dimensions: " ++ Py.str (width img) ++ "x"
               ++ Py.str (height img));
       Stderr ("// Total pixels: " ++ Py.str 0) ],
     inl Py.ZeroDivisionError) /\
  exit_status (main w argv) = 1 /\
  Forall (fun row => row = []) pixels.
Proof.
  intros Hlen Hparse Hex L Hz pixels.
  pose proof (load_image_events w (arg argv 1) (target_width_of argv)) as Ev.
  rewrite L in Ev. unfold events in Ev. cbn [fst] in Ev. subst evs.
  rewrite (main_parsed _ _ Hlen Hparse), (run_loaded _ _ _ _ _ _ Hex L).
  fold pixels. rewrite Hz. cbn [Py.truediv Z.eqb]. repeat split.
  unfold pixels, grid.
  destruct (Z.eq_dec (height img) 0) as [H0|H0].
  - rewrite H0. constructor.
  - assert (W0 : width img = 0) by nia. rewrite W0.
    apply Forall_map, Forall_forall. now intros y _.
Qed.


(** Arguments after the third are ignored: from four entries on, [main]
    does the same whatever follows. *)
Theorem main_ignores_further_arguments w argv more :
  4 <= Py.len argv ->
  main w (argv ++ more) = main w argv.
Proof.
  intros Hlen. unfold Py.len in Hlen.
  assert (L2 : (Py.len argv <? 2) = false) by (apply Z.ltb_ge; unfold Py.len; lia).
  assert (L3 : (2 <? Py.len argv) = true) by (apply Z.ltb_lt; unfold Py.len; lia).
  assert (L4 : (3 <? Py.len argv) = true) by (apply Z.ltb_lt; unfold Py.len; lia).
  assert (M2 : (Py.len (argv ++ more) <? 2) = false)
    by (apply Z.ltb_ge; unfold Py.len; rewrite length_app; lia).
  assert (M3 : (2 <? Py.len (argv ++ more)) = true)
    by (apply Z.ltb_lt; unfold Py.len; rewrite length_app; lia).
  assert (M4 : (3 <? Py.len (argv ++ more)) = true)
    by (apply Z.ltb_lt; unfold Py.len; rewrite length_app; lia).
  unfold main. rewrite L2, L3, L4, M2, M3, M4.
  unfold arg. rewrite !app_nth1 by lia. reflexivity.
Qed.

(** Leaving the threshold out is passing 128, when [int] reads the text
    128 as the number 128. *)
Theorem main_default_threshold w prog path :
  int_of_str "128" = Some 128 ->
  main w [prog; path] = main w [prog; path; "128"%string].
Proof.
  intros H. unfold main, int. cbn [Py.len List.length Z.of_nat Z.ltb Z.compare
                                    Pos.of_succ_nat Pos.succ Pos.compare Pos.compare_cont
                                    arg nth].
  now rewrite H.
Qed.

End MainRuns.

Lemma main_success_witness :
  main (lib := Demo.library) Demo.world ["image_to_sprite.py"; "logo.png"]
  = ([ PathExists "logo.png";
       ImageOpen "logo.png";
       Stderr "Image size: 2x2";
       Stdout (format_as_typescript [[1; 0]; [1; 0]] "STACK_ATTACK_LOGO");
       Stderr (Py.nl ++ "// Dimensions: 2x2");
       Stderr "// Total pixels: 4";
       Stderr "// Filled pixels: 2 (50.0%)" ],
     inr tt) /\
  exit_status (main (lib := Demo.library) Demo.world ["image_to_sprite.py"; "logo.png"]) = 0 /\
  width Demo.logo * height Demo.logo <> 0.
Proof.
  apply (main_success (lib := Demo.library) Demo.world ["image_to_sprite.py"; "logo.png"]
           [ImageOpen "logo.png"] Demo.logo 0.5%float).
  - vm_compute. discriminate.
  - split; intros H; vm_compute in H; discriminate.
  - reflexivity.
  - reflexivity.
  - vm_compute. reflexivity.
Defined.

Lemma main_on_image_without_pixels_witness :
  main (lib := Demo.library) Edge.world ["image_to_sprite.py"; "blank.png"]
  = ([ PathExists "blank.png";
       ImageOpen "blank.png";
       Stderr "Image size: 0x0";
       Stdout (format_as_typescript [] "STACK_ATTACK_LOGO");
       Stderr (Py.nl ++ "// Dimensions: 0x0");
       Stderr "// Total pixels: 0" ],
     inl Py.ZeroDivisionError) /\
  exit_status (main (lib := Demo.library) Edge.world ["image_to_sprite.py"; "blank.png"]) = 1 /\
  Forall (fun row => row = []) (grid Edge.blank 128).
Proof.
  apply (main_on_image_without_pixels (lib := Demo.library) Edge.world
           ["image_to_sprite.py"; "blank.png"] [ImageOpen "blank.png"] Edge.blank).
  - vm_compute. discriminate.
  - split; intros H; vm_compute in H; discriminate.
  - reflexivity.
  - reflexivity.
  - reflexivity.
Defined.


Lemma main_ignores_further_arguments_witness :
  main (lib := Demo.library) Demo.world
    (["image_to_sprite.py"; "strip.png"; "128"; "5"] ++ ["--compact"; "out.ts"])
  = main (lib := Demo.library) Demo.world ["image_to_sprite.py"; "strip.png"; "128"; "5"].
Proof.
  apply (main_ignores_further_arguments (lib := Demo.library) Demo.world
           ["image_to_sprite.py"; "strip.png"; "128"; "5"] ["--compact"; "out.ts"]).
  vm_compute. discriminate.
Defined.

Lemma main_default_threshold_witness :
  main (lib := Demo.library) Demo.world ["image_to_sprite.py"; "logo.png"]
  = main (lib := Demo.library) Demo.world ["image_to_sprite.py"; "logo.png"; "128"].
Proof.
  apply (main_default_threshold (lib := Demo.library) Demo.world
           "image_to_sprite.py" "logo.png").
  reflexivity.
Defined.

(** ** What the conversion writes, and errors of the resize *)

Section Diagnostics.

Context {lib : Library}.


(** An exception of Pillow's [resize] is not caught: when the size
    computed for the target width is refused, [main] ends with that
    exception after the existence check and the open, having printed
    nothing and written no diagnostic of its own. *)
Theorem main_resize_error_propagates w argv img0 tw th e :
  2 <= Py.len argv ->
  args_parse argv ->
  path_exists w (arg argv 1) = true ->
  decode w (arg argv 1) = Some img0 ->
  target_width_of argv = Some tw ->
  tw <> 0 ->
  target_height (to_rgb img0) tw = ret th ->
  resize (to_rgb img0) (tw, th) = inl e ->
  main w argv = ([PathExists (arg argv 1); ImageOpen (arg argv 1)], inl e) /\
  stdout_lines (events (main w argv)) = [] /\
  stderr_lines (events (main w argv)) = [].
Proof.
  intros Hlen Hparse Hex Hd Htw Hnz Hth Hr.
  assert (L : load_image w (arg argv 1) (target_width_of argv)
              = ([ImageOpen (arg argv 1)], inl e)).
  { rewrite Htw. unfold load_image.
    rewrite (bind_ok _ _ _ _ (Image_open_ok _ _ _ Hd)).
    apply Z.eqb_neq in Hnz. rewrite Hnz, Hth, bind_ret, Hr. reflexivity. }
  rewrite (main_parsed _ _ Hlen Hparse), (run_load_fail _ _ _ _ _ _ Hex L).
  now repeat split.
Qed.

End Diagnostics.


Lemma main_resize_error_propagates_witness :
  main (lib := Demo.library) Demo.world ["image_to_sprite.py"; "strip.png"; "128"; "2"]
  = ([PathExists "strip.png"; ImageOpen "strip.png"], inl Py.ValueError) /\
  stdout_lines
    (events (main (lib := Demo.library) Demo.world
               ["image_to_sprite.py"; "strip.png"; "128"; "2"])) = [] /\
  stderr_lines
    (events (main (lib := Demo.library) Demo.world
               ["image_to_sprite.py"; "strip.png"; "128"; "2"])) = [].
Proof.
  apply (main_resize_error_propagates (lib := Demo.library) Demo.world
           ["image_to_sprite.py"; "strip.png"; "128"; "2"] Demo.strip 2 0 Py.ValueError).
  - vm_compute. discriminate.
  - split; intros _; [exists 128|exists 2]; reflexivity.
  - reflexivity.
  - reflexivity.
  - reflexivity.
  - discriminate.
  - vm_compute. reflexivity.
  - reflexivity.
Defined.

(** Different grids of 0s and 1s never print the same: both text forms
    are injective on such grids. *)
Theorem text_forms_are_injective p1 p2 :
  bits p1 -> bits p2 ->
  (format_as_typescript p1 "STACK_ATTACK_LOGO" = format_as_typescript p2 "STACK_ATTACK_LOGO"
   -> p1 = p2) /\
  (format_as_compact p1 = format_as_compact p2 -> p1 = p2).
Proof.
  intros B1 B2. split; intros E.
  - rewrite <- (read_grid_logo_text p1 B1), <- (read_grid_logo_text p2 B2).
    now rewrite <- !format_as_typescript_logo, E.
  - rewrite <- (read_grid_compact_text p1 B1), <- (read_grid_compact_text p2 B2).
    now rewrite <- !format_as_compact_text, E.
Qed.

Lemma text_forms_are_injective_witness :
  (format_as_typescript [[1; 0]; [0; 0]] "STACK_ATTACK_LOGO"
   = format_as_typescript [[1; 0]; [0; 0]] "STACK_ATTACK_LOGO"
   -> [[1; 0]; [0; 0]] = [[1; 0]; [0; 0]]) /\
  (format_as_compact [[1; 0]; [0; 0]] = format_as_compact [[1; 0]; [0; 0]]
   -> [[1; 0]; [0; 0]] = [[1; 0]; [0; 0]]).
Proof.
  apply (text_forms_are_injective [[1; 0]; [0; 0]] [[1; 0]; [0; 0]]); bits_tac.
Defined.
